(** * mozregui.bisection: the GUI bisection sequencer

    A shallow embedding of [gui/mozregui/bisection.py]: the download manager
    that focuses one download ([GuiBuildDownloadManager]), the evaluation
    gate ([GuiTestRunner]), the step sequencer ([GuiBisector]) and the
    controller ([BisectRunner]).

    Qt signals are recorded in a trace of events, [QTimer.singleShot] posts a
    slot on the queue of the worker thread, and an uncaught Python exception
    ends the slot with [Raise].  A slot runs to its end before the next
    input is taken. *)

From Stdlib Require Import ZArith.
From stdpp Require Import gmap strings list fin_maps pretty.

Local Open Scope Z_scope.

(** ** Python values *)

(** The triple returned by [sys.exc_info()]; [error[1]] is [exc_value]. *)
Record ExcInfo := {
  exc_type : string;
  exc_value : string;
  exc_traceback : string;
}.

(** A build_info is a Python dict with string keys. *)
Abbreviation BuildInfo := (gmap string string).

(** A download object as the slots see it, through its three accessors. *)
Module Download.
Record t := {
  get_dest : string;
  is_canceled : bool;
  error : option ExcInfo;
}.
End Download.

(** What the manager records about a download it tracks: the flag set by
    [dl.cancel()] and whether [dl.set_progress] installed a callback.  The
    only callback this module installs is [download_progress.emit]. *)
Record Tracked := {
  canceled : bool;
  progress_hook : bool;
}.

Definition as_download (dest : string) (t : Tracked) : Download.t :=
  {| Download.get_dest := dest;
     Download.is_canceled := canceled t;
     Download.error := None |}.

(** The launcher created by [create_launcher(build_info)]. *)
Record Launcher := {
  launched_build : option BuildInfo;
}.

(** Slots posted on the worker thread with [QTimer.singleShot]. *)
Inductive Task :=
| T_bisect
| T_bisect_next
| T_evaluate.

Inductive Icon :=
| Question
| Warning
| Critical
| Information.

(** The buttons a message box returns. *)
Inductive StandardButton :=
| Ok_button
| Cancel
| Yes
| No
| NoButton.

Global Instance StandardButton_eq_dec : EqDecision StandardButton.
Proof. solve_decision. Defined.

(** The signals of the three classes, and the calls made on the launcher,
    in the order they happen.  [has_run] tells whether the bisection object
    carried by the signal is a Bisection ([true]) or [None] ([false]).
    [bisector_created] is the signal of the controller, and the last two
    are what the controller shows on the main window. *)
Inductive Event :=
| download_progress (dl : Download.t) (current total : Z)
| download_started (dl : Download.t)
| download_finished (dl : Download.t)
| evaluate_started
| evaluate_finished
| started (has_run : bool)
| finished (has_run : bool) (code : Z)
| step_started (has_run : bool) (n : nat)
| step_build_found (has_run : bool) (n : nat) (build_info : BuildInfo)
| step_finished (has_run : bool) (n : nat) (verdict : option string)
| launcher_start (l : Launcher)
| launcher_stop (l : Launcher)
| bisector_created (bisector : option nat)
| message_box (icon : Icon) (title text : string)
| status_message (text : string) (msec : Z).

Inductive Effect :=
| Emit (e : Event)
| SingleShot (msec : Z) (t : Task).

(** A Python exception.  [MozRegressionError] carries what
    [sys.exc_info()] returns while it is handled; [OtherException] is an
    exception of any class not named here. *)
Inductive Exception :=
| AssertionError
| TypeError
| KeyError
| AttributeError
| MozRegressionError (info : ExcInfo)
| OtherException (info : ExcInfo).

Inductive Result (A : Type) :=
| Ok (a : A)
| Raise (e : Exception).
Arguments Ok {A} a.
Arguments Raise {A} e.

(** ** A state, output and exception monad for the methods

    A method returns or raises, and in both cases leaves a state and the
    effects it had until then. *)

Definition M (S A : Type) : Type := S → Result A * S * list Effect.

Definition ret {S A} (a : A) : M S A := λ s, (Ok a, s, []).

Definition bind {S A B} (m : M S A) (k : A → M S B) : M S B :=
  λ s, match m s with
       | (Raise e, s1, o1) => (Raise e, s1, o1)
       | (Ok a, s1, o1) =>
           match k a s1 with
           | (r, s2, o2) => (r, s2, o1 ++ o2)
           end
       end.

Definition get {S} : M S S := λ s, (Ok s, s, []).
Definition put {S} (s : S) : M S unit := λ _, (Ok tt, s, []).
Definition modify {S} (f : S → S) : M S unit := λ s, (Ok tt, f s, []).
Definition emit {S} (e : Event) : M S unit := λ s, (Ok tt, s, [Emit e]).
Definition singleShot {S} (msec : Z) (t : Task) : M S unit :=
  λ s, (Ok tt, s, [SingleShot msec t]).
Definition raise {S A} (e : Exception) : M S A := λ s, (Raise e, s, []).

(** [try: m except MozRegressionError: h], where [h] receives the exception
    being handled. *)
Definition try_except {S A} (m : M S A) (h : ExcInfo → M S A) : M S A :=
  λ s, match m s with
       | (Raise (MozRegressionError info), s1, o1) =>
           match h info s1 with
           | (r, s2, o2) => (r, s2, o1 ++ o2)
           end
       | other => other
       end.

(** Run a method of a component on the field that holds the component. *)
Definition zoom {S T A} (rd : S → T) (wr : T → S → S) (m : M T A) : M S A :=
  λ s, match m (rd s) with
       | (r, t, o) => (r, wr t s, o)
       end.

Global Instance M_ret {S} : MRet (M S) := λ A, ret.
Global Instance M_bind {S} : MBind (M S) := λ A B k m, bind m k.

(** ** The code this module calls

    The base classes and the bisection handlers live in the mozregression
    package; the module uses them through these operations.  [Bisection] is
    the state of a Bisection object, and an operation that changes the object
    returns its new state.

    The two calls the module makes inside a [try] block,
    [Bisector.bisect] and [search_mid_point], return or raise an exception
    of any class.  The other operations are taken to return: a run described
    below is one in which the handler, the launcher and the helpers of the
    download manager raise nothing. *)
Class Collaborators := {
  Handler : Type;
  BuildData : Type;
  Bisection : Type;
  Mid : Type;
  (** [BuildDownloadManager._extract_download_info] and [get_dest] *)
  _extract_download_info : BuildInfo → string * string;
  get_dest : string → string;
  (** [launcher.get_app_info()] *)
  get_app_info : Launcher → gmap string string;
  (** the handler classes, and what [Bisector.bisect] computes from the
      handler and the two bounds before it calls [_bisect], unless it
      raises *)
  NightlyHandler : Handler;
  InboundHandler : Handler;
  Bisector_build_data : Handler → string → string → Exception + BuildData;
  (** the Bisection class; [search_mid_point] returns the mid point or
      raises *)
  new_Bisection : Handler → BuildData → Bisection;
  search_mid_point : Bisection → Bisection * (Exception + Mid);
  init_handler : Bisection → Mid → Bisection * Z;
  handler_build_infos : Bisection → Mid → BuildInfo;
  update_build_info : Bisection → option Mid → gmap string string → Bisection;
  handle_verdict : Bisection → option Mid → option string → Bisection * Z;
  RUNNING : Z;
  NO_DATA : Z;
}.

(** [Bisection.EXCEPTION = -1  # new possible value of bisection end] *)
Definition EXCEPTION : Z := -1.

(** ** GuiBuildDownloadManager *)

Module GuiBuildDownloadManager.

Record t := {
  _downloads : gmap string Tracked;
  downloaded : gset string;
}.

Definition set_downloads (m : gmap string Tracked) (dm : t) : t :=
  {| _downloads := m; downloaded := downloaded dm |}.

(** [__init__]: nothing is tracked yet; [files] are the destinations
    present in the download directory, which no method embedded here reads
    or changes. *)
Definition new (files : gset string) : t :=
  {| _downloads := ∅; downloaded := files |}.

(** The downloads the manager tracks, as download objects. *)
Definition tracked_downloads (dm : t) : list Download.t :=
  (λ kt, as_download kt.1 kt.2) <$> map_to_list (_downloads dm).

Definition cancel_tracked (tk : Tracked) : Tracked :=
  {| canceled := true; progress_hook := progress_hook tk |}.

Definition set_progress (tk : Tracked) : Tracked :=
  {| canceled := canceled tk; progress_hook := true |}.

(** Modelled from the spec: [BuildDownloadManager.cancel] of
    mozregression/download_manager.py, which is not among the sources.
    "cancels every tracked download matching predicate; cancel() with no
    predicate cancels all", and cancellation "sets a cancelled flag". *)
Definition cancel (cancel_if : option (Download.t → bool)) : M t unit :=
  modify (λ dm,
    set_downloads
      (map_imap (λ dest tk,
         Some (match cancel_if with
               | None => cancel_tracked tk
               | Some p =>
                   if p (as_download dest tk) then cancel_tracked tk else tk
               end)) (_downloads dm)) dm).

Section Methods.
Context `{Collaborators}.

Definition _download_started (task : Download.t) : M t unit :=
  emit (download_started task).

(** Modelled from the spec: what [BuildDownloadManager._download_finished]
    of mozregression/download_manager.py does after the signal: a
    download that ended is no longer tracked. *)
Definition _download_finished (task : Download.t) : M t unit :=
  emit (download_finished task) ;;
  modify (λ dm,
    set_downloads (delete (Download.get_dest task) (_downloads dm)) dm).

(** Modelled from the spec: a download "streams progress and completion as
    events".  The download object, which is not among the sources, calls
    the callback that [set_progress] installed with itself, the current size
    and the total; without a callback the report is lost. *)
Definition report_progress (dest : string) (current total : Z) : M t unit :=
  dm ← get;
  match _downloads dm !! dest with
  | Some tk =>
      if progress_hook tk then
        emit (download_progress (as_download dest tk) current total)
      else ret tt
  | None => ret tt
  end.

(** Modelled from the spec: [BuildDownloadManager.download] of
    mozregression/download_manager.py, which is not among the sources.
    "starts (or resumes tracking) the download for the target key if not
    already active": a new download is started, and returned, when the
    destination is not tracked; otherwise nothing is returned. *)
Definition download (build_url fname : string) : M t (option string) :=
  dm ← get;
  let dest := get_dest fname in
  if decide (is_Some (_downloads dm !! dest)) then
    ret None
  else
    let tk := {| canceled := false; progress_hook := false |} in
    put (set_downloads (<[dest := tk]> (_downloads dm)) dm) ;;
    _download_started (as_download dest tk) ;;
    ret (Some dest).

(** [focus_download].  The dict [build_info] is updated in place; the
    updated dict is the result. *)
Definition focus_download (build_info : BuildInfo) : M t BuildInfo :=
  let '(build_url, fname) := _extract_download_info build_info in
  let dest := get_dest fname in
  cancel (Some (λ dl, bool_decide (dest ≠ Download.get_dest dl))) ;;
  dl ← download build_url fname;
  match dl with
  | Some d =>
      modify (λ dm, set_downloads (alter set_progress d (_downloads dm)) dm)
  | None => ret tt
  end ;;
  ret (<["build_path"%string := dest]> build_info).

(** The destination [focus_download] computes for a build. *)
Definition dest_of (build_info : BuildInfo) : string :=
  get_dest (_extract_download_info build_info).2.

End Methods.
End GuiBuildDownloadManager.

(** ** GuiTestRunner *)

Module GuiTestRunner.

Record t := {
  app_info : gmap string string;
  verdict : option string;
  launcher : option Launcher;
}.

Definition set_launcher (l : option Launcher) (tr : t) : t :=
  {| app_info := app_info tr; verdict := verdict tr; launcher := l |}.
Definition set_app_info (i : gmap string string) (tr : t) : t :=
  {| app_info := i; verdict := verdict tr; launcher := launcher tr |}.
Definition set_verdict (v : option string) (tr : t) : t :=
  {| app_info := app_info tr; verdict := v; launcher := launcher tr |}.

(** [__init__] *)
Definition new : t :=
  {| app_info := ∅; verdict := None; launcher := None |}.

(** [TestRunner.create_launcher] *)
Definition create_launcher (build_info : option BuildInfo) : Launcher :=
  {| launched_build := build_info |}.

Section Methods.
Context `{Collaborators}.

Definition evaluate (build_info : option BuildInfo) : M t unit :=
  let l := create_launcher build_info in
  modify (set_launcher (Some l)) ;;
  emit (launcher_start l) ;;
  modify (set_app_info (get_app_info l)) ;;
  emit evaluate_started.

Definition finish (v : string) : M t unit :=
  tr ← get;
  match launcher tr with
  | None => raise AssertionError
  | Some l =>
      emit (launcher_stop l) ;;
      modify (set_verdict (Some v)) ;;
      emit evaluate_finished ;;
      modify (set_launcher None)
  end.

End Methods.
End GuiTestRunner.

(** ** GuiBisector *)

Module GuiBisector.
Section Methods.
Context `{Collaborators}.

Record t := {
  download_manager : GuiBuildDownloadManager.t;
  test_runner : GuiTestRunner.t;
  bisection : option Bisection;
  mid : option Mid;
  build_infos : option BuildInfo;
  _step_num : nat;
  _bisect_args : option (Handler * string * string);
  error : option ExcInfo;
}.

Definition set_download_manager (dm : GuiBuildDownloadManager.t) (b : t) : t :=
  {| download_manager := dm; test_runner := test_runner b;
     bisection := bisection b; mid := mid b; build_infos := build_infos b;
     _step_num := _step_num b; _bisect_args := _bisect_args b;
     error := error b |}.
Definition set_test_runner (tr : GuiTestRunner.t) (b : t) : t :=
  {| download_manager := download_manager b; test_runner := tr;
     bisection := bisection b; mid := mid b; build_infos := build_infos b;
     _step_num := _step_num b; _bisect_args := _bisect_args b;
     error := error b |}.
Definition set_bisection (x : option Bisection) (b : t) : t :=
  {| download_manager := download_manager b; test_runner := test_runner b;
     bisection := x; mid := mid b; build_infos := build_infos b;
     _step_num := _step_num b; _bisect_args := _bisect_args b;
     error := error b |}.
Definition set_mid (x : option Mid) (b : t) : t :=
  {| download_manager := download_manager b; test_runner := test_runner b;
     bisection := bisection b; mid := x; build_infos := build_infos b;
     _step_num := _step_num b; _bisect_args := _bisect_args b;
     error := error b |}.
Definition set_build_infos (x : option BuildInfo) (b : t) : t :=
  {| download_manager := download_manager b; test_runner := test_runner b;
     bisection := bisection b; mid := mid b; build_infos := x;
     _step_num := _step_num b; _bisect_args := _bisect_args b;
     error := error b |}.
Definition set_step_num (n : nat) (b : t) : t :=
  {| download_manager := download_manager b; test_runner := test_runner b;
     bisection := bisection b; mid := mid b; build_infos := build_infos b;
     _step_num := n; _bisect_args := _bisect_args b; error := error b |}.
Definition set_bisect_args (x : option (Handler * string * string)) (b : t) : t :=
  {| download_manager := download_manager b; test_runner := test_runner b;
     bisection := bisection b; mid := mid b; build_infos := build_infos b;
     _step_num := _step_num b; _bisect_args := x; error := error b |}.
Definition set_error (x : option ExcInfo) (b : t) : t :=
  {| download_manager := download_manager b; test_runner := test_runner b;
     bisection := bisection b; mid := mid b; build_infos := build_infos b;
     _step_num := _step_num b; _bisect_args := _bisect_args b; error := x |}.

(** [__init__]; [files] are the destinations already present in the
    download directory. *)
Definition new (files : gset string) : t :=
  {| download_manager := GuiBuildDownloadManager.new files;
     test_runner := GuiTestRunner.new;
     bisection := None; mid := None; build_infos := None;
     _step_num := 0; _bisect_args := None; error := None |}.

(** Whether the bisection object passed along with a signal is a
    Bisection. *)
Definition has_bisection (b : t) : bool := bool_decide (is_Some (bisection b)).

(** [_finish_on_exception(bisection)], called while the exception [info]
    is handled: [sys.exc_info()] is [info]. *)
Definition _finish_on_exception (info : ExcInfo) (has_run : bool) : M t unit :=
  modify (set_error (Some info)) ;;
  emit (finished has_run EXCEPTION).

Definition _bisect (handler : Handler) (build_data : BuildData) : M t unit :=
  modify (set_bisection (Some (new_Bisection handler build_data))) ;;
  modify (set_step_num 0) ;;
  b ← get;
  emit (started (has_bisection b)) ;;
  singleShot 200 T_bisect_next.

(** Modelled from the spec: [Bisector.bisect] of mozregression/bisector.py,
    which is not among the sources.  "initializes Run, emits a started
    event, schedules the first step": it builds the data of the range and
    calls [_bisect], or raises. *)
Definition Bisector_bisect (handler : Handler) (good bad : string) : M t unit :=
  match Bisector_build_data handler good bad with
  | inl e => raise e
  | inr build_data => _bisect handler build_data
  end.

Definition bisect : M t unit :=
  b ← get;
  try_except
    (match _bisect_args b with
     | None => raise TypeError
     | Some (handler, good, bad) => Bisector_bisect handler good bad
     end)
    (λ info, _finish_on_exception info false).

(** The [try] block of [_bisect_next]. *)
Definition assign_mid_point : M t Mid :=
  b ← get;
  match bisection b with
  | None => raise AttributeError
  | Some bi =>
      let '(bi', found) := search_mid_point bi in
      modify (set_bisection (Some bi')) ;;
      match found with
      | inl e => raise e
      | inr m => modify (set_mid (Some m)) ;; ret m
      end
  end.

(** What [_bisect_next] does once the mid point is known. *)
Definition init_and_download (m : Mid) : M t unit :=
  b ← get;
  match bisection b with
  | None => raise AttributeError
  | Some bi =>
      let '(bi', result) := init_handler bi m in
      modify (set_bisection (Some bi')) ;;
      if decide (result ≠ RUNNING) then
        emit (finished true result)
      else
        modify (set_build_infos (Some (handler_build_infos bi' m))) ;;
        (* focus_download updates the dict that self.build_infos holds *)
        infos ← zoom download_manager set_download_manager
                  (GuiBuildDownloadManager.focus_download
                     (handler_build_infos bi' m));
        modify (set_build_infos (Some infos)) ;;
        b' ← get;
        emit (step_build_found true (_step_num b') infos)
  end.

Definition _bisect_next : M t unit :=
  modify (λ b, set_step_num (S (_step_num b)) b) ;;
  b ← get;
  emit (step_started (has_bisection b) (_step_num b)) ;;
  found ← try_except (m ← assign_mid_point; ret (Some m))
             (λ info,
                b' ← get;
                _finish_on_exception info (has_bisection b') ;;
                ret None);
  match found with
  | None => ret tt
  | Some m => init_and_download m
  end.

(** Modelled from the spec: [Bisection.evaluate] of
    mozregression/bisector.py, which is not among the sources: "the
    sequencer invokes EvaluationGate's evaluate path with the
    BuildDescriptor". *)
Definition Bisection_evaluate (infos : option BuildInfo) : M t unit :=
  zoom test_runner set_test_runner (GuiTestRunner.evaluate infos).

Definition _evaluate : M t unit :=
  b ← get;
  match bisection b with
  | None => raise AttributeError
  | Some _ => Bisection_evaluate (build_infos b)
  end.

Definition _build_dl_finished (dl : Download.t) : M t unit :=
  b ← get;
  match build_infos b with
  | None => raise TypeError
  | Some infos =>
      match infos !! "build_path"%string with
      | None => raise KeyError
      | Some build_path =>
          if negb (bool_decide (Download.get_dest dl = build_path)) then
            ret tt
          else if Download.is_canceled dl
                  || bool_decide (is_Some (Download.error dl)) then
            ret tt
          else
            singleShot 0 T_evaluate
      end
  end.

Definition _evaluate_finished : M t unit :=
  b ← get;
  match bisection b with
  | None => raise AttributeError
  | Some bi =>
      let bi1 := update_build_info bi (mid b)
                   (GuiTestRunner.app_info (test_runner b)) in
      modify (set_bisection (Some bi1)) ;;
      emit (step_finished true (_step_num b)
              (GuiTestRunner.verdict (test_runner b))) ;;
      let '(bi2, result) :=
        handle_verdict bi1 (mid b) (GuiTestRunner.verdict (test_runner b)) in
      modify (set_bisection (Some bi2)) ;;
      if decide (result ≠ RUNNING) then
        emit (finished true result)
      else
        singleShot 0 T_bisect_next
  end.

End Methods.
End GuiBisector.

(** ** BisectRunner *)

Record QThread := {
  isRunning : bool;
}.

Module BisectRunner.
Section Methods.
Context `{Collaborators}.

(** The attributes [bisector] and [thread] hold references; [bisectors]
    and [threads] are the objects the references designate, which live on
    when the controller drops its reference. *)
Record t := {
  bisector : option nat;
  thread : option nat;
  bisectors : gmap nat GuiBisector.t;
  threads : gmap nat QThread;
}.

Definition set_bisector (r : option nat) (a : t) : t :=
  {| bisector := r; thread := thread a;
     bisectors := bisectors a; threads := threads a |}.
Definition set_thread (r : option nat) (a : t) : t :=
  {| bisector := bisector a; thread := r;
     bisectors := bisectors a; threads := threads a |}.
Definition set_bisectors (m : gmap nat GuiBisector.t) (a : t) : t :=
  {| bisector := bisector a; thread := thread a;
     bisectors := m; threads := threads a |}.
Definition set_threads (m : gmap nat QThread) (a : t) : t :=
  {| bisector := bisector a; thread := thread a;
     bisectors := bisectors a; threads := m |}.

(** [__init__] *)
Definition new : t :=
  {| bisector := None; thread := None; bisectors := ∅; threads := ∅ |}.

(** A reference designates an object of the store. *)
Definition well_formed (a : t) : Prop :=
  ∀ r, bisector a = Some r → is_Some (bisectors a !! r).

(** Run a method on the object a reference designates.  A reference that
    designates nothing cannot exist in Python; the case makes the
    function total. *)
Definition on_bisector {A} (r : nat) (m : M GuiBisector.t A) : M t A :=
  λ a, match bisectors a !! r with
       | Some b =>
           match m b with
           | (res, b', o) => (res, set_bisectors (<[r := b']> (bisectors a)) a, o)
           end
       | None => (Raise AttributeError, a, [])
       end.

Definition stop : M t unit :=
  a ← get;
  match bisector a with
  | Some r =>
      on_bisector r
        (zoom GuiBisector.download_manager GuiBisector.set_download_manager
           (GuiBuildDownloadManager.cancel None)) ;;
      modify (set_bisector None)
  | None => ret tt
  end ;;
  a' ← get;
  match thread a' with
  | Some th =>
      (* quit() and wait(): the thread has left its event loop *)
      modify (λ x, set_threads (alter (λ _, {| isRunning := false |}) th (threads x)) x) ;;
      modify (set_thread None)
  | None => ret tt
  end.

(** [options[key]] *)
Definition item (options : gmap string string) (key : string) : M t string :=
  match options !! key with
  | Some v => ret v
  | None => raise KeyError
  end.

(** [bisect(fetch_config, options)]; [files] are the destinations already
    present in the download directory.  The signals connected here reach the
    driving context: in the runs below the answer of [evaluate] is the
    verdict given to [finish]. *)
Definition bisect (files : gset string) (options : gmap string string) : M t unit :=
  stop ;;
  a ← get;
  let r := fresh (dom (bisectors a)) in
  let th := fresh (dom (threads a)) in
  modify (λ x, set_bisectors (<[r := GuiBisector.new files]> (bisectors x)) x) ;;
  modify (set_bisector (Some r)) ;;
  modify (λ x, set_threads (<[th := {| isRunning := false |}]> (threads x)) x) ;;
  modify (set_thread (Some th)) ;;
  bisect_type ← item options "bisect_type";
  args ← (if decide (bisect_type = "nightlies"%string) then
            start ← item options "start_date";
            end_ ← item options "end_date";
            ret (NightlyHandler, start, end_)
          else
            start ← item options "start_changeset";
            end_ ← item options "end_changeset";
            ret (InboundHandler, start, end_));
  modify (λ x, set_threads (alter (λ _, {| isRunning := true |}) th (threads x)) x) ;;
  on_bisector r (modify (GuiBisector.set_bisect_args (Some args))) ;;
  singleShot 0 T_bisect.

Definition show_dl_progress (dl : Download.t) (current total : Z) : M t unit :=
  emit (status_message
          ("downloading " +:+ Download.get_dest dl +:+ ": "
             +:+ pretty current +:+ "/" +:+ pretty total) 2000).

(** [buttons=QMessageBox.Yes | QMessageBox.No]: the buttons of the
    evaluation dialog, one of which [QMessageBox.question] returns. *)
Definition evaluate_buttons : list StandardButton := [Yes; No].

(** The verdict [evaluate] passes to [finish] for the answer [res]. *)
Definition verdict_of (res : StandardButton) : string :=
  let verdict := "g"%string in
  if decide (res = No) then "b"%string else verdict.

(** [evaluate]; [res] is what [QMessageBox.question] returns. *)
Definition evaluate (res : StandardButton) : M t unit :=
  emit (message_box Question "Build Evaluation" "Is that good ?") ;;
  a ← get;
  match bisector a with
  | None => raise AttributeError
  | Some r =>
      on_bisector r
        (zoom GuiBisector.test_runner GuiBisector.set_test_runner
           (GuiTestRunner.finish (verdict_of res)))
  end.

Definition bisection_finished (has_run : bool) (resultcode : Z) : M t unit :=
  shown ← (if decide (resultcode = NO_DATA) then
             ret ("Unable to find enough data to bisect."%string, Warning)
           else if decide (resultcode = EXCEPTION) then
             a ← get;
             match bisector a with
             | None => raise AttributeError
             | Some r =>
                 on_bisector r
                   (b ← get;
                    match GuiBisector.error b with
                    | None => raise TypeError
                    | Some info =>
                        ret ("Error: " +:+ exc_value info, Critical)
                    end)
             end
           else
             ret ("The bisection is done."%string, Information));
  emit (message_box shown.2 "End of the bisection" shown.1) ;;
  stop.

Definition on_bisection_started : M t unit :=
  a ← get;
  emit (bisector_created (bisector a)).

End Methods.
End BisectRunner.

(** ** A run of the sequencer

    The worker thread takes the posted slots one at a time; downloads report
    their progress and end, and the driving context delivers verdicts, in
    between.  A signal calls the slot connected to it in
    [GuiBisector.__init__]. *)

Module Run.
Section System.
Context `{Collaborators}.

Record World := {
  bisector : GuiBisector.t;
  queue : list Task;         (* slots posted on the worker thread *)
  prompts : nat;             (* evaluate_started signals not yet answered *)
  trace : list Event;
  faults : list Exception;   (* exceptions that escaped a slot *)
}.

Definition set_bisector (b : GuiBisector.t) (w : World) : World :=
  {| bisector := b; queue := queue w; prompts := prompts w;
     trace := trace w; faults := faults w |}.
Definition set_queue (q : list Task) (w : World) : World :=
  {| bisector := bisector w; queue := q; prompts := prompts w;
     trace := trace w; faults := faults w |}.
Definition set_prompts (n : nat) (w : World) : World :=
  {| bisector := bisector w; queue := queue w; prompts := n;
     trace := trace w; faults := faults w |}.
Definition set_trace (tr : list Event) (w : World) : World :=
  {| bisector := bisector w; queue := queue w; prompts := prompts w;
     trace := tr; faults := faults w |}.
Definition set_faults (f : list Exception) (w : World) : World :=
  {| bisector := bisector w; queue := queue w; prompts := prompts w;
     trace := trace w; faults := f |}.

Inductive Input :=
| RunTask                                          (* the next posted slot runs *)
| DownloadDone (dest : string) (err : option ExcInfo)  (* a tracked download ends *)
| Verdict (v : string)                             (* finish(v) answers a prompt *)
| DownloadProgress (dest : string) (current total : Z).  (* a tracked download
                                                      reports its progress *)

Definition slot (t : Task) : M GuiBisector.t unit :=
  match t with
  | T_bisect => GuiBisector.bisect
  | T_bisect_next => GuiBisector._bisect_next
  | T_evaluate => GuiBisector._evaluate
  end.

(** [download_finished.connect(self._build_dl_finished)] and
    [evaluate_finished.connect(self._evaluate_finished)] *)
Definition connected (e : Event) : option (M GuiBisector.t unit) :=
  match e with
  | download_finished dl => Some (GuiBisector._build_dl_finished dl)
  | evaluate_finished => Some GuiBisector._evaluate_finished
  | _ => None
  end.

Definition record_fault {A} (r : Result A) (w : World) : World :=
  match r with
  | Ok _ => w
  | Raise e => set_faults (faults w ++ [e]) w
  end.

(** An emitted signal enters the trace, and [evaluate_started] opens a
    prompt in the driving context. *)
Definition observe (e : Event) (w : World) : World :=
  let w' := set_trace (trace w ++ [e]) w in
  match e with
  | evaluate_started => set_prompts (S (prompts w')) w'
  | _ => w'
  end.

(** The effects of a connected slot; the two connected slots emit no
    signal that is connected in turn. *)
Fixpoint settle_plain (o : list Effect) (w : World) : World :=
  match o with
  | [] => w
  | SingleShot _ t :: o' => settle_plain o' (set_queue (queue w ++ [t]) w)
  | Emit e :: o' => settle_plain o' (observe e w)
  end.

(** The effects of a method, in order.  The slot connected to a signal
    runs when the signal is emitted; neither connected slot reads what
    the emitting method still changes after the signal. *)
Fixpoint settle (o : list Effect) (w : World) : World :=
  match o with
  | [] => w
  | SingleShot _ t :: o' => settle o' (set_queue (queue w ++ [t]) w)
  | Emit e :: o' =>
      let w1 := observe e w in
      match connected e with
      | None => settle o' w1
      | Some m =>
          match m (bisector w1) with
          | (r, b, o2) =>
              settle o' (settle_plain o2 (record_fault r (set_bisector b w1)))
          end
      end
  end.

Definition perform (m : M GuiBisector.t unit) (w : World) : World :=
  match m (bisector w) with
  | (r, b, o) => settle o (record_fault r (set_bisector b w))
  end.

Definition step (i : Input) (w : World) : option World :=
  match i with
  | RunTask =>
      match queue w with
      | [] => None
      | t :: q => Some (perform (slot t) (set_queue q w))
      end
  | DownloadDone dest err =>
      match GuiBuildDownloadManager._downloads
              (GuiBisector.download_manager (bisector w)) !! dest with
      | None => None
      | Some tk =>
          Some (perform
                  (zoom GuiBisector.download_manager
                     GuiBisector.set_download_manager
                     (GuiBuildDownloadManager._download_finished
                        {| Download.get_dest := dest;
                           Download.is_canceled := canceled tk;
                           Download.error := err |})) w)
      end
  | Verdict v =>
      match prompts w with
      | O => None
      | S n =>
          Some (perform
                  (zoom GuiBisector.test_runner GuiBisector.set_test_runner
                     (GuiTestRunner.finish v)) (set_prompts n w))
      end
  | DownloadProgress dest current total =>
      match GuiBuildDownloadManager._downloads
              (GuiBisector.download_manager (bisector w)) !! dest with
      | None => None
      | Some _ =>
          Some (perform
                  (zoom GuiBisector.download_manager
                     GuiBisector.set_download_manager
                     (GuiBuildDownloadManager.report_progress
                        dest current total)) w)
      end
  end.

Fixpoint run (inputs : list Input) (w : World) : option World :=
  match inputs with
  | [] => Some w
  | i :: rest =>
      match step i w with
      | None => None
      | Some w' => run rest w'
      end
  end.

(** The world [BisectRunner.bisect] leaves: a new bisector with its
    arguments, and the slot [bisect] posted on the worker thread. *)
Definition start (files : gset string) (handler : Handler) (good bad : string)
  : World :=
  {| bisector :=
       GuiBisector.set_bisect_args (Some (handler, good, bad))
         (GuiBisector.new files);
     queue := [T_bisect];
     prompts := 0;
     trace := [];
     faults := [] |}.

(** The indices of the [step_started] signals, the codes of the
    [finished] signals of a trace. *)
Definition step_indices (tr : list Event) : list nat :=
  omap (λ e, match e with step_started _ n => Some n | _ => None end) tr.

Definition finished_codes (tr : list Event) : list Z :=
  omap (λ e, match e with finished _ code => Some code | _ => None end) tr.

(** The signals among the effects of a method. *)
Definition events (o : list Effect) : list Event :=
  omap (λ x, match x with Emit e => Some e | SingleShot _ _ => None end) o.

(** The only signal once a run has ended: a download that was left
    behind ends. *)
Definition is_download_finished (e : Event) : Prop :=
  ∃ dl, e = download_finished dl.

(** *** The phases of a run *)

Definition tracked (w : World) : gmap string Tracked :=
  GuiBuildDownloadManager._downloads (GuiBisector.download_manager (bisector w)).

Definition launcher (w : World) : option Launcher :=
  GuiTestRunner.launcher (GuiBisector.test_runner (bisector w)).

(** No tracked download has the destination of the focused build. *)
Definition settled (w : World) : Prop :=
  ∀ infos build_path,
    GuiBisector.build_infos (bisector w) = Some infos →
    infos !! "build_path"%string = Some build_path →
    tracked w !! build_path = None.

(** Downloads are tracked only once a build is focused; a focused build has
    its ['build_path'], and a tracked download is the one of that path. *)
Definition focused (w : World) : Prop :=
  match GuiBisector.build_infos (bisector w) with
  | None => tracked w = ∅
  | Some infos =>
      ∃ build_path,
        infos !! "build_path"%string = Some build_path ∧
        ∀ dest, is_Some (tracked w !! dest) → dest = build_path
  end.

Inductive Phase :=
| Posted
| Searching
| Downloading
| EvaluatePosted
| Evaluating
| Terminated.

Definition in_phase (p : Phase) (w : World) : Prop :=
  match p with
  | Posted =>
      queue w = [T_bisect] ∧ prompts w = 0%nat ∧ launcher w = None ∧
      tracked w = ∅ ∧ GuiBisector.build_infos (bisector w) = None ∧
      GuiBisector._step_num (bisector w) = 0%nat ∧ trace w = [] ∧
      is_Some (GuiBisector._bisect_args (bisector w))
  | Searching =>
      queue w = [T_bisect_next] ∧ prompts w = 0%nat ∧ launcher w = None ∧
      is_Some (GuiBisector.bisection (bisector w)) ∧ settled w ∧
      finished_codes (trace w) = []
  | Downloading =>
      queue w = [] ∧ prompts w = 0%nat ∧ launcher w = None ∧
      is_Some (GuiBisector.bisection (bisector w)) ∧
      is_Some (GuiBisector.build_infos (bisector w)) ∧
      finished_codes (trace w) = []
  | EvaluatePosted =>
      queue w = [T_evaluate] ∧ prompts w = 0%nat ∧ launcher w = None ∧
      is_Some (GuiBisector.bisection (bisector w)) ∧ settled w ∧
      finished_codes (trace w) = []
  | Evaluating =>
      queue w = [] ∧ prompts w = 1%nat ∧ is_Some (launcher w) ∧
      is_Some (GuiBisector.bisection (bisector w)) ∧ settled w ∧
      finished_codes (trace w) = []
  | Terminated =>
      queue w = [] ∧ prompts w = 0%nat ∧ launcher w = None ∧
      settled w ∧ length (finished_codes (trace w)) = 1%nat
  end.

(** What holds in a run as long as no exception has escaped a slot. *)
Definition invariant (w : World) : Prop :=
  step_indices (trace w) = seq 1 (GuiBisector._step_num (bisector w)) ∧
  focused w ∧ faults w = [] ∧ ∃ p, in_phase p w.

(** An exception has escaped the slot [bisect] or [_bisect_next]: nothing is
    posted, tracked or launched, and no [finished] signal was emitted. *)
Definition crashed (w : World) : Prop :=
  step_indices (trace w) = seq 1 (GuiBisector._step_num (bisector w)) ∧
  queue w = [] ∧ prompts w = 0%nat ∧ launcher w = None ∧ tracked w = ∅ ∧
  finished_codes (trace w) = [] ∧ faults w ≠ [].

(** Nothing is posted, no evaluation is open and no download is tracked. *)
Definition quiet (w : World) : Prop :=
  queue w = [] ∧ prompts w = 0%nat ∧ tracked w = ∅.

(** The progress reports of the download of [dest], as inputs and as the
    signals they give. *)
Definition progress_inputs (dest : string) (reports : list (Z * Z))
  : list Input :=
  (λ r, DownloadProgress dest r.1 r.2) <$> reports.

Definition progress_signals (dl : Download.t) (reports : list (Z * Z))
  : list Event :=
  (λ r, download_progress dl r.1 r.2) <$> reports.

(** Every tracked download that is not cancelled is the one of the focused
    build. *)
Definition only_focused_active (w : World) : Prop :=
  ∀ dest tk,
    tracked w !! dest = Some tk → canceled tk = false →
    ∃ infos, GuiBisector.build_infos (bisector w) = Some infos ∧
             infos !! "build_path"%string = Some dest.



End System.
End Run.

(** ** A scripted handler

    A handler over a counter, to run the methods on concrete values: the
    search raises a MozRegressionError when the counter is 0 and a KeyError
    when it is 3, [init_handler] answers NO_DATA when it is 1, and every
    verdict takes 2 off the counter and ends the bisection when 5 is left. *)

Module Script.

Definition no_mid_point : ExcInfo :=
  {| exc_type := "MozRegressionError";
     exc_value := "no build in the range";
     exc_traceback := "bisector.py" |}.

Definition no_data : ExcInfo :=
  {| exc_type := "MozRegressionError";
     exc_value := "no bound";
     exc_traceback := "bisector.py" |}.

Definition build (m : nat) : BuildInfo :=
  {[ "build_url"%string := if decide (m = 2%nat) then "http://builds/two.zip"%string
                           else "http://builds/other.zip"%string ]}.

Global Instance script : Collaborators := {|
  Handler := unit;
  BuildData := nat;
  Bisection := nat;
  Mid := nat;
  _extract_download_info bi :=
    (default ""%string (bi !! "build_url"%string),
     if decide (bi !! "build_url"%string = Some "http://builds/two.zip"%string)
     then "two.zip"%string else "other.zip"%string);
  get_dest fname := ("/tmp/" +:+ fname)%string;
  get_app_info l := ∅;
  NightlyHandler := tt;
  InboundHandler := tt;
  Bisector_build_data _ good bad :=
    if decide (bad = ""%string) then inl (MozRegressionError no_data)
    else inr (String.length good);
  new_Bisection _ build_data := build_data;
  search_mid_point b :=
    (b, if decide (b = 0%nat) then inl (MozRegressionError no_mid_point)
        else if decide (b = 3%nat) then inl KeyError
        else inr b);
  init_handler b _ := (b, if decide (b = 1%nat) then 1 else 0);
  handler_build_infos _ m := build m;
  update_build_info b _ _ := b;
  handle_verdict b _ _ := ((b - 2)%nat, if decide ((b - 2)%nat = 5%nat) then 2 else 0);
  RUNNING := 0;
  NO_DATA := 1;
|}.

(** The world once the first step has evaluated its build, for a range
    whose counter starts at 2. *)
Definition one_step : list Run.Input :=
  [Run.RunTask; Run.RunTask; Run.DownloadDone "/tmp/two.zip" None;
   Run.RunTask; Run.Verdict "g"].

(** The run over a range whose counter starts at 2. *)
Definition from_two : Run.World := @Run.start script ∅ tt "ab" "z".

(** The run over a range whose counter starts at 1. *)
Definition from_one : Run.World := @Run.start script ∅ tt "a" "z".

(** The run over a range whose counter starts at 3: its first search raises
    a KeyError. *)
Definition from_three : Run.World := @Run.start script ∅ tt "abc" "z".

Definition two : BuildInfo := build 2.

(** A download manager that tracks one other download. *)
Definition busy : GuiBuildDownloadManager.t :=
  {| GuiBuildDownloadManager._downloads :=
       {[ "/tmp/other.zip"%string := {| canceled := false; progress_hook := true |} ]};
     GuiBuildDownloadManager.downloaded := ∅ |}.

(** A bisector whose focused build is [two]. *)
Definition focused_bisector : GuiBisector.t :=
  GuiBisector.set_build_infos
    (Some (<["build_path"%string := "/tmp/two.zip"%string]> two))
    (GuiBisector.new ∅).

(** A controller with a run: its bisector tracks a download, has caught an
    error and has a build launched; its thread runs. *)
Definition running_bisector : GuiBisector.t :=
  GuiBisector.set_test_runner
    (GuiTestRunner.set_launcher
       (Some (GuiTestRunner.create_launcher (Some two))) GuiTestRunner.new)
    (GuiBisector.set_error (Some no_mid_point)
       (GuiBisector.set_download_manager busy (GuiBisector.new ∅))).

Definition controller : BisectRunner.t :=
  {| BisectRunner.bisector := Some 0%nat;
     BisectRunner.thread := Some 0%nat;
     BisectRunner.bisectors := {[ 0%nat := running_bisector ]};
     BisectRunner.threads := {[ 0%nat := {| isRunning := true |} ]} |}.

(** The first step up to its download, and up to its evaluation. *)
Definition until_download : list Run.Input :=
  [Run.RunTask; Run.RunTask].



(** The dict of the first step once it is focused. *)
Definition two_focused : BuildInfo :=
  <["build_path"%string := "/tmp/two.zip"%string]> two.

(** Options for a bisection of nightlies, and options with no key. *)
Definition nightly_options : gmap string string :=
  {[ "bisect_type"%string := "nightlies"%string;
     "start_date"%string := "2015-01-01"%string;
     "end_date"%string := "2015-02-01"%string ]}.

End Script.

(** * Properties *)

(** Unfold the monad of the methods. *)
Ltac unfold_monad :=
  unfold mbind, mret, M_bind, M_ret, bind, ret, get, put, modify, emit,
    singleShot, raise, zoom, try_except in *.

Ltac run_method := unfold_monad; cbn in *.

Section DownloadFocus.
Context `{Collaborators}.
Import GuiBuildDownloadManager.

Lemma elem_of_tracked_downloads (dm : t) (dl : Download.t) :
  dl ∈ tracked_downloads dm ↔
  ∃ dest tk, _downloads dm !! dest = Some tk ∧ dl = as_download dest tk.
Proof.
  unfold tracked_downloads. rewrite list_elem_of_fmap. split.
  - intros [[dest tk] [-> Hin]]. apply elem_of_map_to_list in Hin. eauto.
  - intros (dest & tk & Hl & ->). exists (dest, tk). split; [done |].
    by apply elem_of_map_to_list.
Qed.

(** The result of [cancel]: the flag of every download that matches. *)
Lemma cancel_lookup (cancel_if : option (Download.t → bool)) (dm : t) (dest : string) :
  _downloads (cancel cancel_if dm).1.2 !! dest =
  (λ tk, match cancel_if with
         | None => cancel_tracked tk
         | Some p => if p (as_download dest tk) then cancel_tracked tk else tk
         end) <$> _downloads dm !! dest.
Proof.
  unfold cancel. run_method. rewrite map_lookup_imap.
  by destruct (_downloads dm !! dest).
Qed.

Lemma cancel_returns (cancel_if : option (Download.t → bool)) (dm : t) :
  (cancel cancel_if dm).1.1 = Ok tt ∧ (cancel cancel_if dm).2 = [] ∧
  downloaded (cancel cancel_if dm).1.2 = downloaded dm.
Proof. done. Qed.

(** What [focus_download] leaves in the collection, destination by
    destination. *)
Lemma focus_download_lookup (build_info : BuildInfo) (dm : t) (dest : string) :
  _downloads (focus_download build_info dm).1.2 !! dest =
  if decide (dest = dest_of build_info) then
    match _downloads dm !! dest with
    | Some tk => Some tk
    | None => Some {| canceled := false; progress_hook := true |}
    end
  else cancel_tracked <$> _downloads dm !! dest.
Proof.
  unfold focus_download, dest_of.
  destruct (_extract_download_info build_info) as [build_url fname] eqn:Hx.
  unfold download. run_method.
  set (m1 := map_imap _ (_downloads dm)).
  assert (Hm1 : ∀ k, m1 !! k =
    (λ tk, if bool_decide (get_dest fname ≠ k) then cancel_tracked tk else tk)
      <$> _downloads dm !! k).
  { intros k. unfold m1. rewrite map_lookup_imap.
    by destruct (_downloads dm !! k). }
  destruct (decide (is_Some (m1 !! get_dest fname))) as [Hyes | Hno]; cbn.
  - rewrite Hm1. case_decide as Hd.
    + subst dest. rewrite bool_decide_eq_false_2 by naive_solver.
      destruct (_downloads dm !! get_dest fname) as [tk|] eqn:Htk; cbn; [done |].
      rewrite Hm1, Htk in Hyes. by destruct Hyes.
    + by rewrite bool_decide_eq_true_2 by naive_solver.
  - assert (Hnone : m1 !! get_dest fname = None)
      by (by apply eq_None_not_Some).
    rewrite lookup_alter. case_decide as Hd.
    + subst dest. rewrite decide_True by done.
      rewrite lookup_insert_eq. cbn.
      rewrite Hm1 in Hnone.
      by destruct (_downloads dm !! get_dest fname).
    + rewrite decide_False by done.
      rewrite lookup_insert_ne by done. rewrite Hm1.
      rewrite bool_decide_eq_true_2 by naive_solver. done.
Qed.

Lemma focus_download_returns (build_info : BuildInfo) (dm : t) :
  (focus_download build_info dm).1.1 =
  Ok (<["build_path"%string := dest_of build_info]> build_info).
Proof.
  unfold focus_download, dest_of.
  destruct (_extract_download_info build_info) as [build_url fname] eqn:Hx.
  unfold download. run_method.
  by destruct (decide _).
Qed.

(** C3.  After [focus_download(B)] every tracked download whose destination
    is not the destination computed for B is cancelled; so two tracked
    downloads that are not cancelled are the same download, and its
    destination is that of B. *)
Theorem focus_download_cancels_others (build_info : BuildInfo) (dm : t) :
  let dm' := (focus_download build_info dm).1.2 in
  (∀ dl, dl ∈ tracked_downloads dm' →
         Download.get_dest dl ≠ dest_of build_info →
         Download.is_canceled dl = true) ∧
  (∀ dl1 dl2, dl1 ∈ tracked_downloads dm' → dl2 ∈ tracked_downloads dm' →
              Download.is_canceled dl1 = false →
              Download.is_canceled dl2 = false →
              dl1 = dl2 ∧ Download.get_dest dl1 = dest_of build_info).
Proof.
  intros dm'.
  assert (Hother : ∀ dl, dl ∈ tracked_downloads dm' →
            Download.get_dest dl ≠ dest_of build_info →
            Download.is_canceled dl = true).
  { intros dl Hin Hne.
    apply elem_of_tracked_downloads in Hin as (dest & tk & Hl & ->).
    cbn in *. unfold dm' in Hl. rewrite focus_download_lookup in Hl.
    rewrite decide_False in Hl by done.
    destruct (_downloads dm !! dest); by simplify_eq/=. }
  split; [exact Hother |].
  intros dl1 dl2 H1 H2 Hc1 Hc2.
  assert (Hd : ∀ dl, dl ∈ tracked_downloads dm' →
            Download.is_canceled dl = false →
            Download.get_dest dl = dest_of build_info).
  { intros dl Hin Hc.
    destruct (decide (Download.get_dest dl = dest_of build_info)); [done |].
    rewrite Hother in Hc; done. }
  pose proof (Hd _ H1 Hc1) as E1. pose proof (Hd _ H2 Hc2) as E2.
  split; [| done].
  apply elem_of_tracked_downloads in H1 as (d1 & t1 & Hl1 & ->).
  apply elem_of_tracked_downloads in H2 as (d2 & t2 & Hl2 & ->).
  cbn in *. subst d1 d2. congruence.
Qed.

(** C9.  [focus_download] returns, and the dict then holds the computed
    destination under ['build_path'], whatever the download manager holds
    and whatever [download] did: a download started or no new one, the
    destination being tracked already.  That entry is what
    [_build_dl_finished] compares a finished download with. *)
Theorem focus_download_sets_build_path (build_info : BuildInfo) (dm : t) :
  ∃ infos,
    (focus_download build_info dm).1.1 = Ok infos ∧
    infos = <["build_path"%string := dest_of build_info]> build_info ∧
    infos !! "build_path"%string = Some (dest_of build_info) ∧
    ∀ (b : GuiBisector.t) (dl : Download.t),
      GuiBisector.build_infos b = Some infos →
      GuiBisector._build_dl_finished dl b =
      (Ok tt, b,
       if bool_decide (Download.get_dest dl = dest_of build_info)
          && negb (Download.is_canceled dl)
          && negb (bool_decide (is_Some (Download.error dl)))
       then [SingleShot 0 T_evaluate] else []).
Proof.
  eexists. split; [apply focus_download_returns |].
  split; [done |]. split; [apply lookup_insert_eq |].
  intros b dl Hb. unfold GuiBisector._build_dl_finished. run_method.
  rewrite Hb, lookup_insert_eq.
  destruct (bool_decide (Download.get_dest dl = dest_of build_info)); cbn;
    [| done].
  destruct (Download.is_canceled dl); cbn; [done |].
  by destruct (bool_decide (is_Some (Download.error dl))).
Qed.

(** *** More on [focus_download] *)

Lemma focus_download_files (build_info : BuildInfo) (dm : t) :
  downloaded (focus_download build_info dm).1.2 = downloaded dm.
Proof.
  unfold focus_download.
  destruct (_extract_download_info build_info) as [build_url fname].
  unfold download. run_method. by destruct (decide _).
Qed.

Lemma focus_download_signals (build_info : BuildInfo) (dm : t) :
  (focus_download build_info dm).2 =
  if decide (is_Some (_downloads dm !! dest_of build_info))
  then []
  else [Emit (download_started
                (as_download (dest_of build_info)
                   {| canceled := false; progress_hook := false |}))].
Proof.
  unfold focus_download, dest_of.
  destruct (_extract_download_info build_info) as [build_url fname].
  unfold download. run_method.
  set (m1 := map_imap _ (_downloads dm)).
  assert (Hm1 : is_Some (m1 !! get_dest fname)
                ↔ is_Some (_downloads dm !! get_dest fname)).
  { unfold m1. rewrite map_lookup_imap.
    destruct (_downloads dm !! get_dest fname); cbn; split; intros [? ?]; eauto;
      done. }
  destruct (decide (is_Some (m1 !! get_dest fname))) as [Hyes | Hno];
    destruct (decide (is_Some (_downloads dm !! get_dest fname)))
      as [Hyes' | Hno']; cbn; try done; exfalso; tauto.
Qed.


(** X2.  Focusing the same build a second time changes nothing: the call
    returns the same dict, leaves the manager as the first call left it and
    emits no [download_started]. *)
Theorem focus_download_twice (build_info : BuildInfo) (dm : t) :
  let dm' := (focus_download build_info dm).1.2 in
  focus_download build_info dm' =
  (Ok (<["build_path"%string := dest_of build_info]> build_info), dm', []).
Proof.
  intros dm'.
  pose proof (focus_download_returns build_info dm') as Hret.
  pose proof (focus_download_signals build_info dm') as Hsig.
  pose proof (focus_download_files build_info dm') as Hfiles.
  pose proof (focus_download_lookup build_info dm') as Hlook.
  assert (Hafter : is_Some (_downloads dm' !! dest_of build_info)).
  { unfold dm'. rewrite focus_download_lookup.
    rewrite decide_True by done.
    destruct (_downloads dm !! dest_of build_info); eauto. }
  rewrite decide_True in Hsig by done.
  destruct (focus_download build_info dm') as [[res dm''] o].
  cbn in Hret, Hsig, Hfiles, Hlook. subst res o.
  f_equal. f_equal.
  destruct dm'' as [m'' f'']. cbn in Hfiles, Hlook. subst f''.
  assert (Hm : m'' = _downloads dm'); [| rewrite Hm; by destruct dm'].
  apply map_eq. intros k. rewrite Hlook.
  case_decide as Hd.
  - subst k. destruct (_downloads dm' !! dest_of build_info) eqn:Hk; [done |].
    by destruct Hafter.
  - unfold dm'. rewrite focus_download_lookup, decide_False by done.
    destruct (_downloads dm !! k); done.
Qed.

End DownloadFocus.

Section Gate.
Context `{Collaborators}.

(** C4.  With a focused build whose ['build_path'] is [build_path], the slot
    [_build_dl_finished] returns and leaves the bisector as it was.  It
    posts [_evaluate] when the destination is [build_path] and the download
    is neither cancelled nor in error; it does nothing when the destination
    differs, and nothing when the download is cancelled or in error. *)
Theorem build_dl_finished_filters (b : GuiBisector.t) (infos : BuildInfo)
    (build_path : string) (dl : Download.t) :
  GuiBisector.build_infos b = Some infos →
  infos !! "build_path"%string = Some build_path →
  (Download.get_dest dl ≠ build_path →
     GuiBisector._build_dl_finished dl b = (Ok tt, b, [])) ∧
  (Download.get_dest dl = build_path →
     Download.is_canceled dl = true ∨ is_Some (Download.error dl) →
     GuiBisector._build_dl_finished dl b = (Ok tt, b, [])) ∧
  (Download.get_dest dl = build_path →
     Download.is_canceled dl = false → Download.error dl = None →
     GuiBisector._build_dl_finished dl b = (Ok tt, b, [SingleShot 0 T_evaluate])) ∧
  (∀ o, GuiBisector._build_dl_finished dl b = (Ok tt, b, o) →
        o ≠ [] →
        Download.get_dest dl = build_path ∧
        Download.is_canceled dl = false ∧ Download.error dl = None).
Proof.
  intros Hb Hp. unfold GuiBisector._build_dl_finished. run_method.
  rewrite Hb, Hp.
  destruct (decide (Download.get_dest dl = build_path)) as [Heq | Hne].
  - rewrite (bool_decide_eq_true_2 _ Heq). cbn.
    destruct (Download.is_canceled dl) eqn:Hc; cbn.
    { repeat split; intros; try done; naive_solver. }
    destruct (Download.error dl) as [e|] eqn:He; cbn.
    + repeat split; intros; try done; naive_solver.
    + repeat split; intros; try done.
      match goal with Hor : _ ∨ _ |- _ => destruct Hor as [? | [? ?]]; done end.
  - rewrite (bool_decide_eq_false_2 _ Hne). cbn.
    repeat split; intros; try done; naive_solver.
Qed.

(** C6.  [finish] raises AssertionError and changes nothing when no launcher
    is in flight, as right after [__init__].  With a launcher in flight it
    stops the launcher, records the verdict, emits [evaluate_finished] and
    clears the launcher; after [evaluate] it succeeds, and then [evaluate]
    and [finish] succeed again. *)
Theorem finish_requires_evaluate (tr : GuiTestRunner.t) (v : string) :
  GuiTestRunner.finish v GuiTestRunner.new
    = (Raise AssertionError, GuiTestRunner.new, []) ∧
  (GuiTestRunner.launcher tr = None →
     GuiTestRunner.finish v tr = (Raise AssertionError, tr, [])) ∧
  (∀ l, GuiTestRunner.launcher tr = Some l →
     GuiTestRunner.finish v tr =
     (Ok tt,
      {| GuiTestRunner.app_info := GuiTestRunner.app_info tr;
         GuiTestRunner.verdict := Some v;
         GuiTestRunner.launcher := None |},
      [Emit (launcher_stop l); Emit evaluate_finished])) ∧
  (∀ infos infos' v',
     let tr1 := (GuiTestRunner.evaluate infos tr).1.2 in
     let tr2 := (GuiTestRunner.finish v tr1).1.2 in
     let tr3 := (GuiTestRunner.evaluate infos' tr2).1.2 in
     (GuiTestRunner.evaluate infos tr).1.1 = Ok tt ∧
     (GuiTestRunner.finish v tr1).1.1 = Ok tt ∧
     GuiTestRunner.verdict tr2 = Some v ∧
     GuiTestRunner.launcher tr2 = None ∧
     (GuiTestRunner.finish v' tr2).1.1 = Raise AssertionError ∧
     (GuiTestRunner.evaluate infos' tr2).1.1 = Ok tt ∧
     GuiTestRunner.launcher tr3 = Some (GuiTestRunner.create_launcher infos') ∧
     (GuiTestRunner.finish v' tr3).1.1 = Ok tt).
Proof.
  split; [done |]. split.
  - intros Hl. unfold GuiTestRunner.finish. run_method. by rewrite Hl.
  - split.
    + intros l Hl. unfold GuiTestRunner.finish. run_method. by rewrite Hl.
    + intros infos infos' v'. cbn. done.
Qed.

(** *** More on the test runner and on the slots *)

(** X3.  [evaluate] has no guard: called while a build is launched, it
    launches the new build and replaces the launcher without stopping the
    first one.  The [finish] that follows stops only the second launcher,
    and one more [finish] raises AssertionError. *)
Theorem evaluate_replaces_launcher (tr : GuiTestRunner.t)
    (infos infos' : option BuildInfo) (v : string) :
  let l' := GuiTestRunner.create_launcher infos' in
  let tr1 := (GuiTestRunner.evaluate infos tr).1.2 in
  let tr2 := (GuiTestRunner.evaluate infos' tr1).1.2 in
  let tr3 := (GuiTestRunner.finish v tr2).1.2 in
  GuiTestRunner.evaluate infos' tr1 =
    (Ok tt,
     {| GuiTestRunner.app_info := get_app_info l';
        GuiTestRunner.verdict := GuiTestRunner.verdict tr;
        GuiTestRunner.launcher := Some l' |},
     [Emit (launcher_start l'); Emit evaluate_started]) ∧
  GuiTestRunner.finish v tr2 =
    (Ok tt,
     {| GuiTestRunner.app_info := get_app_info l';
        GuiTestRunner.verdict := Some v;
        GuiTestRunner.launcher := None |},
     [Emit (launcher_stop l'); Emit evaluate_finished]) ∧
  GuiTestRunner.finish v tr3 = (Raise AssertionError, tr3, []).
Proof. done. Qed.

(** X4.  [_build_dl_finished] subscripts [self.build_infos]: with no build
    focused yet it raises TypeError, and with a dict that has no
    ['build_path'] it raises KeyError; in both cases nothing is posted and
    the bisector is unchanged. *)
Theorem build_dl_finished_needs_focus (b : GuiBisector.t) (dl : Download.t) :
  (GuiBisector.build_infos b = None →
     GuiBisector._build_dl_finished dl b = (Raise TypeError, b, [])) ∧
  (∀ infos, GuiBisector.build_infos b = Some infos →
     infos !! "build_path"%string = None →
     GuiBisector._build_dl_finished dl b = (Raise KeyError, b, [])).
Proof.
  split.
  - intros Hb. unfold GuiBisector._build_dl_finished. run_method. by rewrite Hb.
  - intros infos Hb Hp. unfold GuiBisector._build_dl_finished. run_method.
    by rewrite Hb, Hp.
Qed.

(** X5.  Before [_bisect] has created the Bisection, the slots that use it
    raise AttributeError.  [_bisect_next] has by then counted the step and
    emitted [step_started] with no bisection; [_evaluate] and
    [_evaluate_finished] have done nothing.  The slot [bisect] without
    arguments raises TypeError. *)
Theorem slots_need_bisection (b : GuiBisector.t) :
  GuiBisector.bisection b = None →
  GuiBisector._bisect_next b =
    (Raise AttributeError,
     GuiBisector.set_step_num (S (GuiBisector._step_num b)) b,
     [Emit (step_started false (S (GuiBisector._step_num b)))]) ∧
  GuiBisector._evaluate b = (Raise AttributeError, b, []) ∧
  GuiBisector._evaluate_finished b = (Raise AttributeError, b, []) ∧
  (GuiBisector._bisect_args b = None →
     GuiBisector.bisect b = (Raise TypeError, b, [])).
Proof.
  intros Hb. split; [| split; [| split]].
  - unfold GuiBisector._bisect_next, GuiBisector.assign_mid_point,
      GuiBisector.has_bisection.
    run_method. rewrite Hb. cbn. done.
  - unfold GuiBisector._evaluate. run_method. by rewrite Hb.
  - unfold GuiBisector._evaluate_finished. run_method. by rewrite Hb.
  - intros Ha. unfold GuiBisector.bisect. run_method. by rewrite Ha.
Qed.

End Gate.

Section Controller.
Context `{Collaborators}.
Import BisectRunner.

Lemma stop_no_run (a : t) :
  bisector a = None → thread a = None → stop a = (Ok tt, a, []).
Proof.
  intros Hb Ht. unfold stop. run_method. rewrite Hb. cbn. rewrite Ht.
  by destruct a.
Qed.

(** What [stop] returns when the references designate stored objects. *)
Lemma stop_spec (a : t) :
  well_formed a →
  stop a =
  (Ok tt,
   {| bisector := None; thread := None;
      bisectors :=
        match bisector a with
        | Some r =>
            alter (λ b, GuiBisector.set_download_manager
                          (GuiBuildDownloadManager.cancel None
                             (GuiBisector.download_manager b)).1.2 b)
              r (bisectors a)
        | None => bisectors a
        end;
      threads :=
        match thread a with
        | Some th => alter (λ _, {| isRunning := false |}) th (threads a)
        | None => threads a
        end |}, []).
Proof.
  intros Hwf. unfold stop, on_bisector. run_method.
  destruct (bisector a) as [r|] eqn:Hr; cbn.
  - destruct (Hwf r Hr) as [b Hb]. rewrite Hb. cbn.
    assert (Halt : <[r:=GuiBisector.set_download_manager
               (GuiBuildDownloadManager.set_downloads
                  (map_imap (λ _ tk, Some (GuiBuildDownloadManager.cancel_tracked tk))
                     (GuiBuildDownloadManager._downloads (GuiBisector.download_manager b)))
                  (GuiBisector.download_manager b)) b]> (bisectors a)
             = alter (λ b, GuiBisector.set_download_manager
                   (GuiBuildDownloadManager.set_downloads
                      (map_imap (λ _ tk, Some (GuiBuildDownloadManager.cancel_tracked tk))
                         (GuiBuildDownloadManager._downloads (GuiBisector.download_manager b)))
                      (GuiBisector.download_manager b)) b) r (bisectors a)).
    { apply map_eq. intros k. rewrite lookup_alter, lookup_insert.
      case_decide; [subst; by rewrite Hb | done]. }
    destruct (thread a) as [th|] eqn:Hth; cbn; rewrite ?Hth; cbn;
      unfold set_thread, set_threads, set_bisector, set_bisectors; cbn;
      by rewrite ?Hth, Halt.
  - destruct (thread a) as [th|] eqn:Hth; cbn; rewrite ?Hth; cbn.
    + unfold set_thread, set_threads; cbn. by rewrite Hr.
    + destruct a; cbn in *; by subst.
Qed.

(** C7.  [stop] returns and leaves no bisector and no thread; the thread it
    held has left its loop and every download the bisector tracked is
    cancelled.  A second [stop] changes nothing, and so does [stop] when
    there is no run. *)
Theorem stop_idempotent (a : t) :
  well_formed a →
  let a1 := (stop a).1.2 in
  (stop a).1.1 = Ok tt ∧
  bisector a1 = None ∧ thread a1 = None ∧
  (∀ r, bisector a = Some r →
     ∃ b1, bisectors a1 !! r = Some b1 ∧
       ∀ dl, dl ∈ GuiBuildDownloadManager.tracked_downloads
                    (GuiBisector.download_manager b1) →
             Download.is_canceled dl = true) ∧
  (∀ th, thread a = Some th → is_Some (threads a !! th) →
     threads a1 !! th = Some {| isRunning := false |}) ∧
  stop a1 = (Ok tt, a1, []) ∧
  (bisector a = None → thread a = None → stop a = (Ok tt, a, [])).
Proof.
  intros Hwf a1. unfold a1. rewrite (stop_spec a Hwf). cbn.
  split; [done |]. split; [done |]. split; [done |]. split; [| split; [| split]].
  - intros r Hr. rewrite Hr. destruct (Hwf r Hr) as [b Hb].
    eexists. split.
    + rewrite lookup_alter, decide_True by done. rewrite Hb. done.
    + intros dl Hin.
      apply elem_of_tracked_downloads in Hin as (dest & tk & Hl & ->).
      cbn in Hl. rewrite map_lookup_imap in Hl.
      destruct (GuiBuildDownloadManager._downloads _ !! dest); by simplify_eq/=.
  - intros th Hth [q Hq]. rewrite Hth, lookup_alter, decide_True by done.
    by rewrite Hq.
  - by apply stop_no_run.
  - intros Hb Ht. rewrite Hb, Ht. destruct a; cbn in *; by subst.
Qed.

Lemma set_bisectors_same (a : t) (r : nat) (b : GuiBisector.t) :
  bisectors a !! r = Some b →
  set_bisectors (<[r := b]> (bisectors a)) a = a.
Proof.
  intros Hb. rewrite insert_id by done. by destruct a.
Qed.

(** C8.  [bisection_finished] shows one message and then does what [stop]
    does: a warning that data is missing for NO_DATA, a critical message
    with the captured error for EXCEPTION, and the information that the
    bisection is done for every other code. *)
Theorem bisection_finished_outcome (a : t) (has_run : bool) (code : Z) :
  well_formed a →
  (code = NO_DATA →
     bisection_finished has_run code a =
     (Ok tt, (stop a).1.2,
      [Emit (message_box Warning "End of the bisection"
               "Unable to find enough data to bisect.")])) ∧
  (code = EXCEPTION → NO_DATA ≠ EXCEPTION →
     ∀ r b info,
       bisector a = Some r → bisectors a !! r = Some b →
       GuiBisector.error b = Some info →
       bisection_finished has_run code a =
       (Ok tt, (stop a).1.2,
        [Emit (message_box Critical "End of the bisection"
                 ("Error: " +:+ exc_value info))])) ∧
  (code ≠ NO_DATA → code ≠ EXCEPTION →
     bisection_finished has_run code a =
     (Ok tt, (stop a).1.2,
      [Emit (message_box Information "End of the bisection"
               "The bisection is done.")])).
Proof.
  intros Hwf. pose proof (stop_spec a Hwf) as Hstop.
  split; [| split].
  - intros ->. unfold bisection_finished. unfold_monad.
    rewrite decide_True by done. cbn. by rewrite Hstop.
  - intros -> Hne r b info Hr Hb He. unfold bisection_finished, on_bisector.
    unfold_monad. rewrite decide_False by done. rewrite decide_True by done.
    rewrite Hr, Hb, He. cbn. rewrite (set_bisectors_same a r b Hb).
    by rewrite Hstop.
  - intros Hn He. unfold bisection_finished. unfold_monad.
    rewrite !decide_False by done. cbn. by rewrite Hstop.
Qed.

(** C10.  The verdict [evaluate] passes to [finish] is "g" or "b" for every
    answer; for an answer that is one of the two buttons of the dialog it is
    "g" for Yes and "b" otherwise.  With an evaluation in flight [finish]
    records exactly that verdict. *)
Theorem evaluate_verdict_good_or_bad (a : t) (res : StandardButton) :
  (verdict_of res = "g"%string ∨ verdict_of res = "b"%string) ∧
  (res ∈ evaluate_buttons →
     verdict_of res = if decide (res = Yes) then "g"%string else "b"%string) ∧
  (∀ r b l,
     bisector a = Some r → bisectors a !! r = Some b →
     GuiTestRunner.launcher (GuiBisector.test_runner b) = Some l →
     ∃ a' b',
       evaluate res a =
       (Ok tt, a',
        [Emit (message_box Question "Build Evaluation" "Is that good ?");
         Emit (launcher_stop l); Emit evaluate_finished]) ∧
       bisectors a' !! r = Some b' ∧
       GuiTestRunner.verdict (GuiBisector.test_runner b')
         = Some (verdict_of res)).
Proof.
  split; [| split].
  - unfold verdict_of. case_decide; auto.
  - unfold evaluate_buttons. intros Hin.
    apply elem_of_cons in Hin as [-> | Hin]; [done |].
    apply elem_of_cons in Hin as [-> | Hin]; [done |].
    by apply elem_of_nil in Hin.
  - intros r b l Hr Hb Hl. unfold evaluate, on_bisector, GuiTestRunner.finish.
    unfold_monad. rewrite Hr, Hb. cbn. rewrite Hl. cbn.
    eexists _, _. split; [reflexivity |]. cbn.
    by rewrite lookup_insert_eq.
Qed.

(** *** More on the controller *)

Lemma stop_returns (a : t) :
  well_formed a → stop a = (Ok tt, (stop a).1.2, []).
Proof. intros Hwf. by rewrite (stop_spec a Hwf). Qed.

(** X6.  [bisect] stops the run there was, creates a bisector and a thread
    that no reference designated before, starts the thread, gives the
    bisector its arguments and posts the slot [bisect]: the bisector and the
    posted slot are those from which a run starts.  The handler is
    NightlyHandler with the two dates when ['bisect_type'] is ['nightlies'],
    and InboundHandler with the two changesets for every other type. *)
Theorem bisect_starts_run (a : t) (files : gset string)
    (options : gmap string string) (handler : Handler) (good bad : string) :
  well_formed a →
  (options !! "bisect_type"%string = Some "nightlies"%string ∧
   options !! "start_date"%string = Some good ∧
   options !! "end_date"%string = Some bad ∧ handler = NightlyHandler)
  ∨ (∃ ty, options !! "bisect_type"%string = Some ty ∧ ty ≠ "nightlies"%string ∧
           options !! "start_changeset"%string = Some good ∧
           options !! "end_changeset"%string = Some bad ∧
           handler = InboundHandler) →
  let a0 := (stop a).1.2 in
  let r := fresh (dom (bisectors a0)) in
  let th := fresh (dom (threads a0)) in
  bisect files options a =
    (Ok tt,
     {| bisector := Some r; thread := Some th;
        bisectors :=
          <[r := Run.bisector (Run.start files handler good bad)]> (bisectors a0);
        threads := <[th := {| isRunning := true |}]> (threads a0) |},
     [SingleShot 0 T_bisect]) ∧
  Run.queue (Run.start files handler good bad) = [T_bisect] ∧
  bisectors a0 !! r = None ∧ threads a0 !! th = None ∧
  (∀ r0, bisector a = Some r0 →
     r0 ≠ r ∧
     ∃ b0, bisectors (bisect files options a).1.2 !! r0 = Some b0 ∧
       ∀ dl, dl ∈ GuiBuildDownloadManager.tracked_downloads
                    (GuiBisector.download_manager b0) →
             Download.is_canceled dl = true).
Proof.
  intros Hwf Hopt a0 r th.
  assert (Hfresh : bisectors a0 !! r = None)
    by apply not_elem_of_dom, is_fresh.
  assert (Hmain : bisect files options a =
    (Ok tt,
     {| bisector := Some r; thread := Some th;
        bisectors :=
          <[r := Run.bisector (Run.start files handler good bad)]> (bisectors a0);
        threads := <[th := {| isRunning := true |}]> (threads a0) |},
     [SingleShot 0 T_bisect])); cycle 1.
  { split; [exact Hmain |]. split; [done |]. split; [done |].
    split; [apply not_elem_of_dom, is_fresh |].
    intros r0 Hr0. rewrite Hmain. cbn.
    destruct (Hwf r0 Hr0) as [b Hb].
    assert (Hold : bisectors a0 !! r0 =
              Some (GuiBisector.set_download_manager
                      (GuiBuildDownloadManager.cancel None
                         (GuiBisector.download_manager b)).1.2 b)).
    { unfold a0. rewrite (stop_spec a Hwf). cbn. rewrite Hr0.
      rewrite lookup_alter, decide_True by done. by rewrite Hb. }
    assert (Hne : r0 ≠ r) by (intros ->; congruence).
    split; [done |]. eexists. split.
    - rewrite lookup_insert_ne by done. exact Hold.
    - intros dl Hin.
      apply elem_of_tracked_downloads in Hin as (dest & tk & Hl & ->).
      cbn in Hl. rewrite map_lookup_imap in Hl.
      destruct (GuiBuildDownloadManager._downloads _ !! dest); by simplify_eq/=. }
  unfold bisect. unfold_monad. rewrite (stop_returns a Hwf). fold a0.
  cbn. fold r. fold th. unfold item, on_bisector. unfold_monad.
  destruct Hopt as [(Hty & Hs & He & ->) | (ty & Hty & Hne & Hs & He & ->)];
    rewrite Hty; cbn.
  - rewrite decide_True by done. cbn. rewrite Hs. cbn. rewrite He. cbn.
    rewrite lookup_insert_eq. cbn.
    unfold set_bisectors, set_threads, set_thread, set_bisector. cbn.
    by rewrite insert_insert_eq, alter_insert_eq.
  - rewrite decide_False by done. cbn. rewrite Hs. cbn. rewrite He. cbn.
    rewrite lookup_insert_eq. cbn.
    unfold set_bisectors, set_threads, set_thread, set_bisector. cbn.
    by rewrite insert_insert_eq, alter_insert_eq.
Qed.

(** X7.  When [options] lacks a key [bisect] reads, it raises KeyError after
    it has stopped the run there was and created the new bisector and thread:
    the controller then holds a bisector without arguments and a thread that
    was never started, and no slot is posted. *)
Theorem bisect_missing_option (a : t) (files : gset string)
    (options : gmap string string) :
  well_formed a →
  options !! "bisect_type"%string = None
  ∨ (options !! "bisect_type"%string = Some "nightlies"%string ∧
     (options !! "start_date"%string = None
      ∨ options !! "end_date"%string = None))
  ∨ (∃ ty, options !! "bisect_type"%string = Some ty ∧ ty ≠ "nightlies"%string ∧
           (options !! "start_changeset"%string = None
            ∨ options !! "end_changeset"%string = None)) →
  let a0 := (stop a).1.2 in
  let r := fresh (dom (bisectors a0)) in
  let th := fresh (dom (threads a0)) in
  bisect files options a =
    (Raise KeyError,
     {| bisector := Some r; thread := Some th;
        bisectors := <[r := GuiBisector.new files]> (bisectors a0);
        threads := <[th := {| isRunning := false |}]> (threads a0) |},
     []).
Proof.
  intros Hwf Hopt a0 r th.
  unfold bisect. unfold_monad. rewrite (stop_returns a Hwf). fold a0.
  cbn. fold r. fold th. unfold item. unfold_monad.
  destruct Hopt as [Hty | [(Hty & Hmiss) | (ty & Hty & Hne & Hmiss)]];
    rewrite Hty; cbn; [done | |].
  - rewrite decide_True by done. cbn.
    destruct (options !! "start_date"%string) as [s|] eqn:Hs; cbn; [| done].
    destruct Hmiss as [? | He]; [done |]. by rewrite He.
  - rewrite decide_False by done. cbn.
    destruct (options !! "start_changeset"%string) as [s|] eqn:Hs; cbn; [| done].
    destruct Hmiss as [? | He]; [done |]. by rewrite He.
Qed.

(** X8.  For the code EXCEPTION, [bisection_finished] reads
    [self.bisector.error[1]] first: with no bisector it raises
    AttributeError and with a bisector that caught no error TypeError.  In
    both cases no message is shown and [stop] is not reached, so the
    controller keeps what it held. *)
Theorem bisection_finished_without_error (a : t) (has_run : bool) :
  NO_DATA ≠ EXCEPTION →
  (bisector a = None →
     bisection_finished has_run EXCEPTION a = (Raise AttributeError, a, [])) ∧
  (∀ r b, bisector a = Some r → bisectors a !! r = Some b →
          GuiBisector.error b = None →
          bisection_finished has_run EXCEPTION a = (Raise TypeError, a, [])).
Proof.
  intros Hne. split.
  - intros Hb. unfold bisection_finished. unfold_monad.
    rewrite decide_False by done. rewrite decide_True by done.
    by rewrite Hb.
  - intros r b Hr Hb He. unfold bisection_finished, on_bisector. unfold_monad.
    rewrite decide_False by done. rewrite decide_True by done.
    rewrite Hr, Hb, He. cbn. by rewrite (set_bisectors_same a r b Hb).
Qed.

(** X9.  [evaluate] asks its question first.  With no bisector it then
    raises AttributeError; with a bisector whose test runner has no build
    launched, the assertion of [finish] fails and no verdict is recorded.
    The controller is unchanged in both cases. *)
Theorem evaluate_without_evaluation (a : t) (res : StandardButton) :
  (bisector a = None →
     evaluate res a =
     (Raise AttributeError, a,
      [Emit (message_box Question "Build Evaluation" "Is that good ?")])) ∧
  (∀ r b, bisector a = Some r → bisectors a !! r = Some b →
          GuiTestRunner.launcher (GuiBisector.test_runner b) = None →
          evaluate res a =
          (Raise AssertionError, a,
           [Emit (message_box Question "Build Evaluation" "Is that good ?")])).
Proof.
  split.
  - intros Hb. unfold evaluate. unfold_monad. by rewrite Hb.
  - intros r b Hr Hb Hl. unfold evaluate, on_bisector, GuiTestRunner.finish.
    unfold_monad. rewrite Hr, Hb. cbn. rewrite Hl. cbn.
    assert (Hsame : GuiBisector.set_test_runner (GuiBisector.test_runner b) b = b)
      by by destruct b.
    by rewrite Hsame, (set_bisectors_same a r b Hb).
Qed.

End Controller.

Section Sequencer.
Context `{Collaborators}.
Import Run.

Ltac unfold_world :=
  unfold step, perform, slot, set_queue, set_prompts, set_trace, set_faults,
    set_bisector, record_fault, observe in *.

(** *** The effects of [focus_download] *)

Lemma focus_download_effects (build_info : BuildInfo) (dm : GuiBuildDownloadManager.t) :
  (GuiBuildDownloadManager.focus_download build_info dm).2 = [] ∨
  ∃ dl, (GuiBuildDownloadManager.focus_download build_info dm).2
        = [Emit (download_started dl)].
Proof.
  unfold GuiBuildDownloadManager.focus_download.
  destruct (_extract_download_info build_info) as [build_url fname].
  unfold GuiBuildDownloadManager.download. run_method.
  destruct (decide _); cbn; eauto.
Qed.

Lemma settle_download_started (o : list Effect) (w : World) :
  (o = [] ∨ ∃ dl, o = [Emit (download_started dl)]) →
  settle o w = set_trace (trace w ++ events o) w.
Proof.
  intros [-> | [dl ->]]; cbn.
  - unfold set_trace. rewrite app_nil_r. by destruct w.
  - done.
Qed.

(** An exception is a MozRegressionError, which the two [try] blocks catch,
    or it is not. *)
Lemma exception_cases (e : Exception) :
  (∃ info, e = MozRegressionError info) ∨ (∀ info, e ≠ MozRegressionError info).
Proof. destruct e; eauto; right; intros info; discriminate. Qed.

(** *** What each input does to the world *)

Lemma step_bisect_ok (w : World) q handler good bad build_data :
  queue w = T_bisect :: q →
  GuiBisector._bisect_args (bisector w) = Some (handler, good, bad) →
  Bisector_build_data handler good bad = inr build_data →
  step RunTask w =
  Some {| bisector :=
            GuiBisector.set_step_num 0
              (GuiBisector.set_bisection
                 (Some (new_Bisection handler build_data)) (bisector w));
          queue := q ++ [T_bisect_next];
          prompts := prompts w;
          trace := trace w ++ [started true];
          faults := faults w |}.
Proof.
  intros Hq Ha Hd. unfold_world. rewrite Hq.
  unfold GuiBisector.bisect, GuiBisector.Bisector_bisect, GuiBisector._bisect.
  run_method. rewrite Ha. cbn. rewrite Hd. cbn. done.
Qed.

Lemma step_bisect_raise (w : World) q handler good bad info :
  queue w = T_bisect :: q →
  GuiBisector._bisect_args (bisector w) = Some (handler, good, bad) →
  Bisector_build_data handler good bad = inl (MozRegressionError info) →
  step RunTask w =
  Some {| bisector := GuiBisector.set_error (Some info) (bisector w);
          queue := q;
          prompts := prompts w;
          trace := trace w ++ [finished false EXCEPTION];
          faults := faults w |}.
Proof.
  intros Hq Ha Hd. unfold_world. rewrite Hq.
  unfold GuiBisector.bisect, GuiBisector.Bisector_bisect,
    GuiBisector._finish_on_exception.
  run_method. rewrite Ha. cbn. rewrite Hd. cbn. done.
Qed.

(** An exception of another class passes the [except] clause of [bisect]:
    nothing was changed or emitted yet. *)
Lemma step_bisect_escape (w : World) q handler good bad e :
  queue w = T_bisect :: q →
  GuiBisector._bisect_args (bisector w) = Some (handler, good, bad) →
  Bisector_build_data handler good bad = inl e →
  (∀ info, e ≠ MozRegressionError info) →
  step RunTask w =
  Some {| bisector := bisector w;
          queue := q;
          prompts := prompts w;
          trace := trace w;
          faults := faults w ++ [e] |}.
Proof.
  intros Hq Ha Hd Hne. unfold_world. rewrite Hq.
  unfold GuiBisector.bisect, GuiBisector.Bisector_bisect.
  run_method. rewrite Ha. cbn. rewrite Hd. cbn.
  destruct e; try done. by destruct (Hne info).
Qed.

Lemma step_bisect_next_raise (w : World) q bi bi' info :
  queue w = T_bisect_next :: q →
  GuiBisector.bisection (bisector w) = Some bi →
  search_mid_point bi = (bi', inl (MozRegressionError info)) →
  step RunTask w =
  Some {| bisector :=
            GuiBisector.set_error (Some info)
              (GuiBisector.set_bisection (Some bi')
                 (GuiBisector.set_step_num
                    (S (GuiBisector._step_num (bisector w))) (bisector w)));
          queue := q;
          prompts := prompts w;
          trace := trace w
                   ++ [step_started true (S (GuiBisector._step_num (bisector w)));
                       finished true EXCEPTION];
          faults := faults w |}.
Proof.
  intros Hq Hb Hs. unfold_world. rewrite Hq.
  unfold GuiBisector._bisect_next, GuiBisector.assign_mid_point,
    GuiBisector._finish_on_exception, GuiBisector.has_bisection.
  run_method. rewrite Hb. cbn. rewrite Hs. cbn.
  by rewrite <- app_assoc.
Qed.

(** An exception of another class passes the [except] clause of
    [_bisect_next]: the counter was incremented and [step_started] emitted,
    and the rest of the slot is skipped. *)
Lemma step_bisect_next_escape (w : World) q bi bi' e :
  queue w = T_bisect_next :: q →
  GuiBisector.bisection (bisector w) = Some bi →
  search_mid_point bi = (bi', inl e) →
  (∀ info, e ≠ MozRegressionError info) →
  step RunTask w =
  Some {| bisector :=
            GuiBisector.set_bisection (Some bi')
              (GuiBisector.set_step_num
                 (S (GuiBisector._step_num (bisector w))) (bisector w));
          queue := q;
          prompts := prompts w;
          trace := trace w
                   ++ [step_started true (S (GuiBisector._step_num (bisector w)))];
          faults := faults w ++ [e] |}.
Proof.
  intros Hq Hb Hs Hne. unfold_world. rewrite Hq.
  unfold GuiBisector._bisect_next, GuiBisector.assign_mid_point,
    GuiBisector.has_bisection.
  run_method. rewrite Hb. cbn. rewrite Hs. cbn.
  destruct e; try done. by destruct (Hne info).
Qed.

Lemma step_bisect_next_stop (w : World) q bi bi' m bi'' code :
  queue w = T_bisect_next :: q →
  GuiBisector.bisection (bisector w) = Some bi →
  search_mid_point bi = (bi', inr m) →
  init_handler bi' m = (bi'', code) →
  code ≠ RUNNING →
  step RunTask w =
  Some {| bisector :=
            GuiBisector.set_bisection (Some bi'')
              (GuiBisector.set_mid (Some m)
                 (GuiBisector.set_step_num
                    (S (GuiBisector._step_num (bisector w))) (bisector w)));
          queue := q;
          prompts := prompts w;
          trace := trace w
                   ++ [step_started true (S (GuiBisector._step_num (bisector w)));
                       finished true code];
          faults := faults w |}.
Proof.
  intros Hq Hb Hs Hi Hc. unfold_world. rewrite Hq.
  unfold GuiBisector._bisect_next, GuiBisector.assign_mid_point,
    GuiBisector.init_and_download, GuiBisector.has_bisection.
  run_method. rewrite Hb. cbn. rewrite Hs. cbn. rewrite Hi. cbn.
  rewrite decide_True by done. cbn.
  by rewrite <- app_assoc.
Qed.

Lemma step_bisect_next_go (w : World) q bi bi' m bi'' :
  queue w = T_bisect_next :: q →
  GuiBisector.bisection (bisector w) = Some bi →
  search_mid_point bi = (bi', inr m) →
  init_handler bi' m = (bi'', RUNNING) →
  let found := GuiBuildDownloadManager.focus_download
                 (handler_build_infos bi'' m)
                 (GuiBisector.download_manager (bisector w)) in
  let infos := <["build_path"%string :=
                   GuiBuildDownloadManager.dest_of (handler_build_infos bi'' m)]>
                 (handler_build_infos bi'' m) in
  step RunTask w =
  Some {| bisector :=
            GuiBisector.set_build_infos (Some infos)
              (GuiBisector.set_download_manager found.1.2
                 (GuiBisector.set_bisection (Some bi'')
                    (GuiBisector.set_mid (Some m)
                       (GuiBisector.set_step_num
                          (S (GuiBisector._step_num (bisector w)))
                          (bisector w)))));
          queue := q;
          prompts := prompts w;
          trace := trace w
                   ++ [step_started true (S (GuiBisector._step_num (bisector w)))]
                   ++ events found.2
                   ++ [step_build_found true
                         (S (GuiBisector._step_num (bisector w))) infos];
          faults := faults w |}.
Proof.
  intros Hq Hb Hs Hi found infos. unfold_world. rewrite Hq.
  unfold GuiBisector._bisect_next, GuiBisector.assign_mid_point,
    GuiBisector.init_and_download, GuiBisector.has_bisection.
  run_method. rewrite Hb. cbn. rewrite Hs. cbn. rewrite Hi. cbn.
  rewrite decide_False by (intros Hn; by apply Hn). cbn.
  pose proof (focus_download_returns (handler_build_infos bi'' m)
                (GuiBisector.download_manager (bisector w))) as Hret.
  pose proof (focus_download_effects (handler_build_infos bi'' m)
                (GuiBisector.download_manager (bisector w))) as Heff.
  fold found in Hret, Heff |- *.
  destruct found as [[res dm'] o]. cbn in Hret, Heff |- *. subst res. cbn.
  destruct Heff as [-> | [dl ->]]; cbn; by rewrite <- !app_assoc.
Qed.

Lemma step_evaluate (w : World) q bi :
  queue w = T_evaluate :: q →
  GuiBisector.bisection (bisector w) = Some bi →
  let l := GuiTestRunner.create_launcher (GuiBisector.build_infos (bisector w)) in
  step RunTask w =
  Some {| bisector :=
            GuiBisector.set_test_runner
              {| GuiTestRunner.app_info := get_app_info l;
                 GuiTestRunner.verdict :=
                   GuiTestRunner.verdict (GuiBisector.test_runner (bisector w));
                 GuiTestRunner.launcher := Some l |} (bisector w);
          queue := q;
          prompts := S (prompts w);
          trace := trace w ++ [launcher_start l; evaluate_started];
          faults := faults w |}.
Proof.
  intros Hq Hb l. unfold_world. rewrite Hq.
  unfold GuiBisector._evaluate, GuiBisector.Bisection_evaluate,
    GuiTestRunner.evaluate.
  run_method. rewrite Hb. cbn. by rewrite <- app_assoc.
Qed.

Lemma step_download_done (w : World) dest err tk infos build_path :
  tracked w !! dest = Some tk →
  GuiBisector.build_infos (bisector w) = Some infos →
  infos !! "build_path"%string = Some build_path →
  let dl := {| Download.get_dest := dest;
               Download.is_canceled := canceled tk;
               Download.error := err |} in
  step (DownloadDone dest err) w =
  Some {| bisector :=
            GuiBisector.set_download_manager
              (GuiBuildDownloadManager.set_downloads
                 (delete dest (tracked w))
                 (GuiBisector.download_manager (bisector w)))
              (bisector w);
          queue := queue w
                   ++ (if bool_decide (dest = build_path) && negb (canceled tk)
                          && negb (bool_decide (is_Some err))
                       then [T_evaluate] else []);
          prompts := prompts w;
          trace := trace w ++ [download_finished dl];
          faults := faults w |}.
Proof.
  intros Ht Hi Hp dl. unfold tracked in *. unfold_world. rewrite Ht.
  unfold GuiBuildDownloadManager._download_finished.
  run_method. unfold GuiBisector._build_dl_finished. run_method.
  rewrite Hi, Hp.
  destruct (bool_decide (dest = build_path)); cbn.
  - destruct (canceled tk); cbn.
    + by rewrite app_nil_r.
    + destruct (bool_decide (is_Some err)); cbn; by rewrite ?app_nil_r.
  - by rewrite app_nil_r.
Qed.

(** A progress report changes nothing but the trace. *)
Lemma step_download_progress (w : World) dest current total tk :
  tracked w !! dest = Some tk →
  step (DownloadProgress dest current total) w =
  Some {| bisector := bisector w;
          queue := queue w;
          prompts := prompts w;
          trace := trace w
                   ++ (if progress_hook tk
                       then [download_progress (as_download dest tk)
                               current total]
                       else []);
          faults := faults w |}.
Proof.
  intros Ht. unfold tracked in *. unfold_world. rewrite Ht.
  unfold GuiBuildDownloadManager.report_progress.
  run_method. rewrite Ht.
  destruct w as [b q p tr f]. destruct b. cbn in *.
  destruct (progress_hook tk); cbn; by rewrite ?app_nil_r.
Qed.

Lemma step_verdict (w : World) v n l bi :
  prompts w = S n →
  launcher w = Some l →
  GuiBisector.bisection (bisector w) = Some bi →
  let b := bisector w in
  let bi1 := update_build_info bi (GuiBisector.mid b)
               (GuiTestRunner.app_info (GuiBisector.test_runner b)) in
  let handled := handle_verdict bi1 (GuiBisector.mid b) (Some v) in
  step (Verdict v) w =
  Some {| bisector :=
            GuiBisector.set_bisection (Some handled.1)
              (GuiBisector.set_test_runner
                 {| GuiTestRunner.app_info :=
                      GuiTestRunner.app_info (GuiBisector.test_runner b);
                    GuiTestRunner.verdict := Some v;
                    GuiTestRunner.launcher := None |} b);
          queue := queue w
                   ++ (if decide (handled.2 ≠ RUNNING) then [] else [T_bisect_next]);
          prompts := n;
          trace := trace w
                   ++ [launcher_stop l; evaluate_finished;
                       step_finished true (GuiBisector._step_num b) (Some v)]
                   ++ (if decide (handled.2 ≠ RUNNING)
                       then [finished true handled.2] else []);
          faults := faults w |}.
Proof.
  intros Hp Hl Hb b bi1 handled. unfold launcher in *. unfold_world.
  rewrite Hp.
  unfold GuiTestRunner.finish.
  run_method. rewrite Hl. cbn.
  unfold GuiBisector._evaluate_finished. run_method. rewrite Hb. cbn.
  fold b. fold bi1. fold handled.
  destruct handled as [bi2 result]. cbn.
  destruct (decide (result ≠ RUNNING)); cbn;
    rewrite <- ?app_assoc; cbn; by rewrite ?app_nil_r.
Qed.

(** *** A run with nothing left to do *)

Lemma quiet_dead (w : World) (i : Input) : quiet w → step i w = None.
Proof.
  intros (Hq & Hp & Ht). unfold tracked in Ht.
  destruct i; unfold step; by rewrite ?Hq, ?Hp, ?Ht, ?lookup_empty.
Qed.

Lemma quiet_run (inputs : list Input) (w w' : World) :
  quiet w → run inputs w = Some w' → w' = w.
Proof.
  intros Hquiet Hrun. destruct inputs as [| i rest]; cbn in Hrun.
  - by simplify_eq.
  - by rewrite (quiet_dead w i Hquiet) in Hrun.
Qed.

(** With no posted slot and no open evaluation, only the end or the
    progress of a tracked download can be the next input. *)
Lemma idle_inputs (w : World) (i : Input) :
  tracked w = ∅ → prompts w = 0%nat → i = RunTask ∨ step i w = None.
Proof.
  intros Ht Hp. unfold tracked in Ht.
  destruct i; [by left | | |]; right; unfold step;
    by rewrite ?Hp, ?Ht, ?lookup_empty.
Qed.

Lemma focused_settled (w : World) : focused w → settled w → tracked w = ∅.
Proof.
  unfold focused, settled. intros Hfoc Hset.
  destruct (GuiBisector.build_infos (bisector w)) as [infos|]; [| done].
  destruct Hfoc as (build_path & Hbp & Honly).
  apply map_empty. intros dest.
  destruct (tracked w !! dest) as [tk|] eqn:Hd; [| done].
  assert (dest = build_path) as -> by (apply Honly; rewrite Hd; eauto).
  by rewrite (Hset infos build_path eq_refl Hbp) in Hd.
Qed.

Lemma crashed_quiet (w : World) : crashed w → quiet w.
Proof. intros (_ & Hq & Hp & _ & Ht & _). by repeat split. Qed.

Lemma terminated_quiet (w : World) :
  focused w → in_phase Terminated w → quiet w.
Proof.
  intros Hfoc (Hq & Hp & _ & Hset & _).
  repeat split; auto using focused_settled.
Qed.

(** *** The invariant of a run *)

Lemma step_indices_app (tr tr' : list Event) :
  step_indices (tr ++ tr') = step_indices tr ++ step_indices tr'.
Proof. apply omap_app. Qed.

Lemma finished_codes_app (tr tr' : list Event) :
  finished_codes (tr ++ tr') = finished_codes tr ++ finished_codes tr'.
Proof. apply omap_app. Qed.

Lemma seq_next (n : nat) : seq 1 n ++ [S n] = seq 1 (S n).
Proof. by rewrite seq_S. Qed.

Ltac trace_facts :=
  rewrite ?step_indices_app, ?finished_codes_app; cbn -[seq];
  rewrite ?app_nil_r.

Ltac open_invariant :=
  unfold focused, settled, tracked, launcher in *; cbn -[seq].

(** Split the invariant of an explicit world at the phase [p]. *)
Ltac invariant_at p :=
  unfold invariant; split; [| split; [| split; [| exists p; unfold in_phase]]];
  open_invariant; trace_facts.

Lemma invariant_start files handler good bad :
  invariant (start files handler good bad).
Proof.
  invariant_at Posted; done.
Qed.

(** A posted slot runs: the run goes on, unless an exception escapes
    [bisect] or [_bisect_next]. *)
Lemma invariant_run_task (w w' : World) :
  invariant w → step RunTask w = Some w' → invariant w' ∨ crashed w'.
Proof.
  intros (Hidx & Hfoc & Hfault & [p Hp]) Hstep.
  destruct p; cbn in Hp.
  - (* Posted *)
    destruct Hp as (Hq & Hpr & Hl & Ht & Hbi & Hn & Htr & [[[h g] b] Ha]).
    destruct (Bisector_build_data h g b) as [e | bd] eqn:Hd.
    + destruct (exception_cases e) as [[info ->] | Hne].
      * rewrite (step_bisect_raise w [] h g b info Hq Ha Hd) in Hstep.
        injection Hstep as <-. left.
        invariant_at Terminated; rewrite ?Htr, ?Hbi, ?Hn; try done.
      * rewrite (step_bisect_escape w [] h g b e Hq Ha Hd Hne) in Hstep.
        injection Hstep as <-. right.
        unfold crashed. cbn -[seq]. rewrite Htr, Hn.
        repeat split; try done. by destruct (faults w).
    + rewrite (step_bisect_ok w [] h g b bd Hq Ha Hd) in Hstep.
      injection Hstep as <-. left.
      invariant_at Searching; rewrite ?Htr, ?Hbi, ?Hn; try done.
  - (* Searching *)
    destruct Hp as (Hq & Hpr & Hl & [bi Hb] & Hset & Hfin).
    pose proof (focused_settled w Hfoc Hset) as Hidle.
    destruct (search_mid_point bi) as [bi' [e | m]] eqn:Hs.
    + destruct (exception_cases e) as [[info ->] | Hne].
      * rewrite (step_bisect_next_raise w [] bi bi' info Hq Hb Hs) in Hstep.
        injection Hstep as <-. left.
        invariant_at Terminated; try done.
        -- by rewrite Hidx, seq_next.
        -- by rewrite Hfin.
      * rewrite (step_bisect_next_escape w [] bi bi' e Hq Hb Hs Hne) in Hstep.
        injection Hstep as <-. right.
        unfold crashed, launcher, tracked in *. cbn -[seq]. trace_facts.
        rewrite Hidx, seq_next, Hfin.
        repeat split; try done. by destruct (faults w).
    + destruct (init_handler bi' m) as [bi'' code] eqn:Hi.
      destruct (decide (code = RUNNING)) as [-> | Hc].
      * pose proof (step_bisect_next_go w [] bi bi' m bi'' Hq Hb Hs Hi) as Hgo.
        cbn zeta in Hgo. rewrite Hgo in Hstep. clear Hgo.
        injection Hstep as <-. left.
        assert (Honly : ∀ dest,
                  is_Some (GuiBuildDownloadManager._downloads
                             (GuiBuildDownloadManager.focus_download
                                (handler_build_infos bi'' m)
                                (GuiBisector.download_manager (bisector w))).1.2
                           !! dest) →
                  dest = GuiBuildDownloadManager.dest_of
                           (handler_build_infos bi'' m)).
        { intros dest. rewrite focus_download_lookup.
          case_decide as Hd; [done |].
          unfold tracked in Hidle. rewrite Hidle, lookup_empty.
          by intros [? ?]. }
        destruct (focus_download_effects (handler_build_infos bi'' m)
                    (GuiBisector.download_manager (bisector w)))
          as [Hev | [dl Hev]]; rewrite Hev; clear Hev;
          invariant_at Downloading; try done.
        all: try by rewrite Hidx, seq_next.
        all: try (eexists; split; [apply lookup_insert_eq | exact Honly]).
        all: rewrite Hfin; repeat split; eauto.
      * rewrite (step_bisect_next_stop w [] bi bi' m bi'' code Hq Hb Hs Hi Hc)
          in Hstep.
        injection Hstep as <-. left.
        invariant_at Terminated; try done.
        -- by rewrite Hidx, seq_next.
        -- by rewrite Hfin.
  - (* Downloading *)
    destruct Hp as (Hq & _). unfold step in Hstep. by rewrite Hq in Hstep.
  - (* EvaluatePosted *)
    destruct Hp as (Hq & Hpr & Hl & [bi Hb] & Hset & Hfin).
    pose proof (step_evaluate w [] bi Hq Hb) as Hev. cbn zeta in Hev.
    rewrite Hev in Hstep. clear Hev. injection Hstep as <-. left.
    invariant_at Evaluating; try done.
    rewrite Hfin, Hpr. repeat split; eauto.
  - (* Evaluating *)
    destruct Hp as (Hq & _). unfold step in Hstep. by rewrite Hq in Hstep.
  - (* Terminated *)
    destruct Hp as (Hq & _). unfold step in Hstep. by rewrite Hq in Hstep.
Qed.

Lemma invariant_download_done (w w' : World) dest err :
  invariant w → step (DownloadDone dest err) w = Some w' → invariant w'.
Proof.
  intros (Hidx & Hfoc & Hfault & [p Hp]) Hstep.
  destruct (tracked w !! dest) as [tk|] eqn:Ht; cycle 1.
  { unfold step in Hstep. unfold tracked in Ht. by rewrite Ht in Hstep. }
  assert (Hbusy : settled w → False).
  { intros Hset. rewrite (focused_settled w Hfoc Hset) in Ht.
    by rewrite lookup_empty in Ht. }
  unfold focused in Hfoc.
  destruct (GuiBisector.build_infos (bisector w)) as [infos|] eqn:Hbi; cycle 1.
  { rewrite Hfoc in Ht. by rewrite lookup_empty in Ht. }
  destruct Hfoc as (build_path & Hbp & Honly).
  assert (dest = build_path) as -> by (apply Honly; rewrite Ht; eauto).
  pose proof (step_download_done w build_path err tk infos build_path Ht Hbi Hbp)
    as Hdone.
  cbn zeta in Hdone. rewrite Hdone in Hstep. clear Hdone.
  injection Hstep as <-.
  assert (Hgone : ∀ k, is_Some (delete build_path (tracked w) !! k) →
                       k = build_path).
  { intros k [tk' Hk]. apply lookup_delete_Some in Hk as [_ Hk].
    apply Honly. rewrite Hk. eauto. }
  destruct p; cbn in Hp; try (exfalso; apply Hbusy; tauto).
  - (* Posted *)
    destruct Hp as (_ & _ & _ & _ & Hnone & _). congruence.
  - (* Downloading *)
    destruct Hp as (Hq & Hpr & Hl & Hb & Hsome & Hfin).
    destruct (bool_decide (build_path = build_path) && negb (canceled tk)
              && negb (bool_decide (is_Some err))) eqn:Hmatch.
    + invariant_at EvaluatePosted; rewrite ?Hbi; eauto.
      rewrite Hfin, Hq. repeat split; try done.
      intros i bp Hi Hbp'. simplify_eq. apply lookup_delete_eq.
    + invariant_at Downloading; rewrite ?Hbi; eauto.
      rewrite Hfin, Hq. repeat split; eauto.
Qed.

Lemma invariant_verdict (w w' : World) v :
  invariant w → step (Verdict v) w = Some w' → invariant w'.
Proof.
  intros (Hidx & Hfoc & Hfault & [p Hp]) Hstep.
  assert (Hidle : prompts w = 0%nat → False).
  { intros Hpr. unfold step in Hstep. by rewrite Hpr in Hstep. }
  destruct p; cbn in Hp; try (exfalso; apply Hidle; tauto).
  destruct Hp as (Hq & Hpr & [l Hl] & [bi Hb] & Hset & Hfin).
  pose proof (step_verdict w v 0 l bi Hpr Hl Hb) as Hv. cbn zeta in Hv.
  rewrite Hv in Hstep. clear Hv. injection Hstep as <-.
  destruct (handle_verdict _ _ _) as [bi2 result]. cbn [fst snd].
  destruct (decide (result ≠ RUNNING)).
  - invariant_at Terminated; rewrite ?Hfin, ?Hq; eauto.
  - invariant_at Searching; rewrite ?Hfin, ?Hq; eauto.
    repeat split; eauto.
Qed.

Lemma invariant_download_progress (w w' : World) dest current total :
  invariant w → step (DownloadProgress dest current total) w = Some w' →
  invariant w'.
Proof.
  intros (Hidx & Hfoc & Hfault & [p Hp]) Hstep.
  destruct (tracked w !! dest) as [tk|] eqn:Ht; cycle 1.
  { unfold step in Hstep. unfold tracked in Ht. by rewrite Ht in Hstep. }
  rewrite (step_download_progress w dest current total tk Ht) in Hstep.
  injection Hstep as <-.
  set (extra := if progress_hook tk then _ else _).
  assert (Hextra : step_indices extra = [] ∧ finished_codes extra = []).
  { unfold extra. by destruct (progress_hook tk). }
  destruct Hextra as [Hsi Hfc].
  split; [| split; [| split]].
  - cbn -[seq]. by rewrite step_indices_app, Hsi, app_nil_r.
  - exact Hfoc.
  - exact Hfault.
  - exists p. destruct p; cbn in Hp |- *;
      unfold settled, tracked, launcher in *; cbn;
      rewrite ?finished_codes_app, ?Hfc, ?app_nil_r; try exact Hp.
    destruct Hp as (_ & _ & _ & Hnone & _).
    unfold tracked in Ht. by rewrite Hnone, lookup_empty in Ht.
Qed.

Lemma invariant_step (i : Input) (w w' : World) :
  invariant w → step i w = Some w' → invariant w' ∨ crashed w'.
Proof.
  destruct i; eauto using invariant_run_task, invariant_download_done,
    invariant_verdict, invariant_download_progress.
Qed.

(** What holds of the world before every input of a run, and is kept by
    the input, holds at the end of the run; the run then goes on or has
    crashed. *)
Lemma run_induction (P : World → Prop) :
  (∀ i w w', invariant w → P w → step i w = Some w' → P w') →
  ∀ inputs w w', invariant w → P w → run inputs w = Some w' →
    P w' ∧ (invariant w' ∨ crashed w').
Proof.
  intros Hkeep inputs.
  induction inputs as [| i rest IH]; intros w w' Hinv HP Hrun; cbn in Hrun.
  - simplify_eq. eauto.
  - destruct (step i w) as [w1|] eqn:Hstep; [| done].
    pose proof (Hkeep i w w1 Hinv HP Hstep) as HP1.
    destruct (invariant_step i w w1 Hinv Hstep) as [Hinv1 | Hcr]; [eauto |].
    pose proof (quiet_run rest w1 w' (crashed_quiet w1 Hcr) Hrun) as ->.
    eauto.
Qed.

Lemma invariant_run (inputs : list Input) (w w' : World) :
  invariant w → run inputs w = Some w' → invariant w' ∨ crashed w'.
Proof.
  intros Hinv Hrun.
  by destruct (run_induction (λ _, True) (λ _ _ _ _ _ _, I) inputs w w' Hinv I Hrun).
Qed.

Lemma reached (files : gset string) (handler : Handler) (good bad : string)
    (inputs : list Input) (w : World) :
  run inputs (start files handler good bad) = Some w →
  invariant w ∨ crashed w.
Proof. apply invariant_run, invariant_start. Qed.

(** *** The counter of the steps *)

Lemma bisect_resets (handler : Handler) (build_data : BuildData) (b : GuiBisector.t) :
  GuiBisector._bisect handler build_data b =
  (Ok tt,
   GuiBisector.set_step_num 0
     (GuiBisector.set_bisection (Some (new_Bisection handler build_data)) b),
   [Emit (started true); SingleShot 200 T_bisect_next]).
Proof. done. Qed.

Lemma bisect_next_counts (b : GuiBisector.t) :
  GuiBisector._step_num (GuiBisector._bisect_next b).1.2
    = S (GuiBisector._step_num b) ∧
  ∃ rest, (GuiBisector._bisect_next b).2 =
          Emit (step_started (GuiBisector.has_bisection b)
                  (S (GuiBisector._step_num b))) :: rest.
Proof.
  unfold GuiBisector._bisect_next, GuiBisector.assign_mid_point,
    GuiBisector.init_and_download, GuiBisector._finish_on_exception,
    GuiBisector.has_bisection.
  run_method.
  destruct (GuiBisector.bisection b) as [bi|] eqn:Hb; cbn; [| eauto].
  destruct (search_mid_point bi) as [bi' [e | m]]; cbn;
    [destruct e; cbn; eauto |].
  destruct (init_handler bi' m) as [bi'' code]; cbn.
  destruct (decide (code ≠ RUNNING)); cbn; [eauto |].
  destruct (GuiBuildDownloadManager.focus_download _ _) as [[[infos | e] dm'] o];
    cbn; eauto.
Qed.

(** C2.  In every run the indices of the [step_started] signals are
    1, 2, ..., up to the counter [_step_num], and they stay as they are once
    a [finished] signal is there.  [_bisect] sets the counter to 0; every
    [_bisect_next] adds exactly 1 to it and first emits [step_started] with
    the new value. *)
Theorem step_indices_consecutive files handler good bad inputs (w : World) :
  run inputs (start files handler good bad) = Some w →
  step_indices (trace w) = seq 1 (GuiBisector._step_num (bisector w)) ∧
  (∀ more w', finished_codes (trace w) ≠ [] → run more w = Some w' →
              step_indices (trace w') = step_indices (trace w)) ∧
  (∀ h bd b, GuiBisector._step_num (GuiBisector._bisect h bd b).1.2 = 0%nat) ∧
  (∀ b, GuiBisector._step_num (GuiBisector._bisect_next b).1.2
          = S (GuiBisector._step_num b) ∧
        ∃ rest, (GuiBisector._bisect_next b).2 =
                Emit (step_started (GuiBisector.has_bisection b)
                        (S (GuiBisector._step_num b))) :: rest).
Proof.
  intros Hrun.
  pose proof (reached files handler good bad inputs w Hrun) as Hinv.
  split; [by destruct Hinv as [(Hidx & _) | (Hidx & _)] |].
  split; [| split; [done | apply bisect_next_counts]].
  intros more w' Hfin Hmore.
  assert (Hquiet : quiet w).
  { destruct Hinv as [(_ & Hfoc & _ & [p Hp]) | Hcr];
      [| by apply crashed_quiet].
    apply terminated_quiet; [done |].
    destruct p; cbn in Hp; try done; exfalso; apply Hfin.
    - destruct Hp as (_ & _ & _ & _ & _ & _ & -> & _). done.
    - tauto.
    - tauto.
    - tauto.
    - tauto. }
  by rewrite (quiet_run more w w' Hquiet Hmore).
Qed.

(** *** The ends of a run *)

Lemma searching_phase (w : World) q :
  invariant w → queue w = T_bisect_next :: q →
  q = [] ∧ in_phase Searching w.
Proof.
  intros (_ & _ & _ & [p Hp]) Hq.
  destruct p; cbn in Hp; destruct Hp as (Hq' & Hp); rewrite Hq in Hq';
    try done.
  injection Hq' as ->. split; [done |]. cbn. by rewrite Hq.
Qed.

(** A slot is posted: no exception has escaped yet. *)
Lemma posted_alive (w : World) t q :
  invariant w ∨ crashed w → queue w = t :: q → invariant w.
Proof.
  intros [Hinv | (_ & Hq & _)] Hq'; [done |]. by rewrite Hq in Hq'.
Qed.

(** C1.  In a run, when [search_mid_point] raises a MozRegressionError in
    the step that [_bisect_next] begins, the step stores what
    [sys.exc_info()] gives in [error], emits [step_started] and then
    [finished] with EXCEPTION, the only [finished] signal of the run, posts
    nothing and leaves the download manager and the test runner as they
    were.  Nothing is tracked or launched then, and no input is possible any
    more: no step, no download and no evaluation begins, and no other
    [finished] is emitted. *)
Theorem search_failure_ends_run files handler good bad inputs (w : World)
    q bi bi' info :
  run inputs (start files handler good bad) = Some w →
  queue w = T_bisect_next :: q →
  GuiBisector.bisection (bisector w) = Some bi →
  search_mid_point bi = (bi', inl (MozRegressionError info)) →
  ∃ w1,
    step RunTask w = Some w1 ∧
    GuiBisector.error (bisector w1) = Some info ∧
    trace w1 = trace w
               ++ [step_started true (S (GuiBisector._step_num (bisector w)));
                   finished true EXCEPTION] ∧
    finished_codes (trace w1) = [EXCEPTION] ∧
    queue w1 = [] ∧ prompts w1 = 0%nat ∧
    GuiBisector.download_manager (bisector w1)
      = GuiBisector.download_manager (bisector w) ∧
    GuiBisector.test_runner (bisector w1)
      = GuiBisector.test_runner (bisector w) ∧
    tracked w1 = ∅ ∧ launcher w1 = None ∧
    (∀ i, step i w1 = None) ∧
    ∀ more w2, run more w1 = Some w2 → w2 = w1.
Proof.
  intros Hrun Hq Hb Hs.
  pose proof (posted_alive w _ _ (reached files handler good bad inputs w Hrun) Hq)
    as Hinv.
  destruct (searching_phase w q Hinv Hq) as [-> Hp].
  pose proof (step_bisect_next_raise w [] bi bi' info Hq Hb Hs) as Hstep.
  match type of Hstep with _ = Some ?x => set (w1 := x) in * end.
  destruct Hinv as (_ & Hfoc & _).
  destruct Hp as (_ & Hpr & Hl & _ & Hset & Hfin).
  pose proof (focused_settled w Hfoc Hset) as Hidle.
  assert (Hfin1 : finished_codes (trace w1) = [EXCEPTION]).
  { unfold w1. cbn -[finished_codes]. by rewrite finished_codes_app, Hfin. }
  assert (Hquiet : quiet w1) by by repeat split.
  exists w1. do 10 (split; [done |]).
  split; [intros i; by apply quiet_dead |].
  intros more w2. by apply quiet_run.
Qed.

(** C5.  When [init_handler] returns a code other than RUNNING in the first
    step of a run, the run is the two slots [bisect] and [_bisect_next]: its
    trace is [started], [step_started] 1 and one [finished] with that code,
    nothing is tracked by the download manager, no launcher exists, and no
    input is possible any more.  So the trace of every execution is a
    prefix of these three signals. *)
Theorem init_not_running_first_step files handler good bad build_data
    bi m bi' code :
  Bisector_build_data handler good bad = inr build_data →
  search_mid_point (new_Bisection handler build_data) = (bi, inr m) →
  init_handler bi m = (bi', code) →
  code ≠ RUNNING →
  ∃ w,
    run [RunTask; RunTask] (start files handler good bad) = Some w ∧
    trace w = [started true; step_started true 1; finished true code] ∧
    finished_codes (trace w) = [code] ∧
    tracked w = ∅ ∧ launcher w = None ∧ queue w = [] ∧ prompts w = 0%nat ∧
    GuiBisector.build_infos (bisector w) = None ∧
    (∀ i, step i w = None) ∧
    (∀ inputs w', run inputs (start files handler good bad) = Some w' →
                  trace w' `prefix_of` trace w).
Proof.
  intros Hd Hs Hi Hc.
  set (w0 := start files handler good bad).
  pose proof (step_bisect_ok w0 [] handler good bad build_data
                eq_refl eq_refl Hd) as H1.
  match type of H1 with _ = Some ?x => set (w1 := x) in * end.
  pose proof (step_bisect_next_stop w1 [] _ bi m bi' code
                eq_refl eq_refl Hs Hi Hc) as H2.
  match type of H2 with _ = Some ?x => set (w2 := x) in * end.
  assert (Hstuck : ∀ i, step i w2 = None).
  { intros i. by apply quiet_dead. }
  exists w2. split.
  { cbn [run]. fold w0. rewrite H1, H2. done. }
  do 8 (split; [done |]).
  intros inputs w' Hrun. fold w0 in Hrun.
  destruct inputs as [| i1 rest]; cbn [run] in Hrun.
  { simplify_eq. apply prefix_nil. }
  destruct (idle_inputs w0 i1 eq_refl eq_refl) as [-> | Hno]; cycle 1.
  { by rewrite Hno in Hrun. }
  rewrite H1 in Hrun.
  destruct rest as [| i2 rest]; cbn [run] in Hrun.
  { simplify_eq. by exists [step_started true 1; finished true code]. }
  destruct (idle_inputs w1 i2 eq_refl eq_refl) as [-> | Hno]; cycle 1.
  { by rewrite Hno in Hrun. }
  rewrite H2 in Hrun.
  destruct rest as [| i3 rest]; cbn [run] in Hrun.
  { by simplify_eq. }
  by rewrite Hstuck in Hrun.
Qed.

(** *** More on the runs *)

(** X10.  In every run at most one [finished] signal is emitted, whichever
    slot emits it; once it is there no slot is posted, no evaluation is open
    and no build is launched. *)
Theorem finished_at_most_once files handler good bad inputs (w : World) :
  run inputs (start files handler good bad) = Some w →
  (length (finished_codes (trace w)) ≤ 1)%nat ∧
  (finished_codes (trace w) ≠ [] →
     queue w = [] ∧ prompts w = 0%nat ∧ launcher w = None).
Proof.
  intros Hrun.
  destruct (reached files handler good bad inputs w Hrun)
    as [(_ & _ & _ & [p Hp]) | (_ & _ & _ & _ & _ & -> & _)];
    [| cbn; split; [lia | done]].
  destruct p; cbn in Hp.
  - destruct Hp as (_ & _ & _ & _ & _ & _ & -> & _). cbn. split; [lia | done].
  - destruct Hp as (_ & _ & _ & _ & _ & ->). cbn. split; [lia | done].
  - destruct Hp as (_ & _ & _ & _ & _ & ->). cbn. split; [lia | done].
  - destruct Hp as (_ & _ & _ & _ & _ & ->). cbn. split; [lia | done].
  - destruct Hp as (_ & _ & _ & _ & _ & ->). cbn. split; [lia | done].
  - destruct Hp as (Hq & Hpr & Hl & _ & Hlen). split; [lia | done].
Qed.

(** A first search that raises an exception of another class than
    MozRegressionError: the run is the two slots [bisect] and
    [_bisect_next], and the second is left by the exception. *)
Lemma first_search_escapes files handler good bad build_data bi e :
  Bisector_build_data handler good bad = inr build_data →
  search_mid_point (new_Bisection handler build_data) = (bi, inl e) →
  (∀ info, e ≠ MozRegressionError info) →
  ∃ w,
    run [RunTask; RunTask] (start files handler good bad) = Some w ∧
    trace w = [started true; step_started true 1] ∧
    faults w = [e] ∧
    (∀ i, step i w = None) ∧
    (∀ inputs w', run inputs (start files handler good bad) = Some w' →
                  finished_codes (trace w') = [] ∧
                  GuiBisector.error (bisector w') = None).
Proof.
  intros Hd Hs Hne.
  set (w0 := start files handler good bad).
  pose proof (step_bisect_ok w0 [] handler good bad build_data
                eq_refl eq_refl Hd) as H1.
  match type of H1 with _ = Some ?x => set (w1 := x) in * end.
  pose proof (step_bisect_next_escape w1 [] _ bi e eq_refl eq_refl Hs Hne)
    as H2.
  match type of H2 with _ = Some ?x => set (w2 := x) in * end.
  assert (Hstuck : ∀ i, step i w2 = None).
  { intros i. by apply quiet_dead. }
  exists w2. split.
  { cbn [run]. fold w0. rewrite H1, H2. done. }
  do 3 (split; [done |]).
  intros inputs w' Hrun. fold w0 in Hrun.
  destruct inputs as [| i1 rest]; cbn [run] in Hrun.
  { by simplify_eq. }
  destruct (idle_inputs w0 i1 eq_refl eq_refl) as [-> | Hno]; cycle 1.
  { by rewrite Hno in Hrun. }
  rewrite H1 in Hrun.
  destruct rest as [| i2 rest]; cbn [run] in Hrun.
  { by simplify_eq. }
  destruct (idle_inputs w1 i2 eq_refl eq_refl) as [-> | Hno]; cycle 1.
  { by rewrite Hno in Hrun. }
  rewrite H2 in Hrun.
  destruct rest as [| i3 rest]; cbn [run] in Hrun.
  { by simplify_eq. }
  by rewrite Hstuck in Hrun.
Qed.

(** X11.  The [except] clause of [_bisect_next] names MozRegressionError
    only.  In a run, when [search_mid_point] raises an exception of another
    class, the exception leaves the slot after the counter was incremented
    and [step_started] emitted: [error] keeps its value, no [finished] is
    emitted, and with nothing posted, tracked or launched no input is
    possible any more.  The run is left unfinished. *)
Theorem other_exception_escapes files handler good bad inputs (w : World)
    q bi bi' e :
  run inputs (start files handler good bad) = Some w →
  queue w = T_bisect_next :: q →
  GuiBisector.bisection (bisector w) = Some bi →
  search_mid_point bi = (bi', inl e) →
  (∀ info, e ≠ MozRegressionError info) →
  ∃ w1,
    step RunTask w = Some w1 ∧
    trace w1 = trace w
               ++ [step_started true (S (GuiBisector._step_num (bisector w)))] ∧
    faults w1 = [e] ∧
    GuiBisector.error (bisector w1) = GuiBisector.error (bisector w) ∧
    finished_codes (trace w1) = [] ∧
    queue w1 = [] ∧ prompts w1 = 0%nat ∧ tracked w1 = ∅ ∧ launcher w1 = None ∧
    (∀ i, step i w1 = None) ∧
    ∀ more w2, run more w1 = Some w2 → w2 = w1.
Proof.
  intros Hrun Hq Hb Hs Hne.
  pose proof (posted_alive w _ _ (reached files handler good bad inputs w Hrun) Hq)
    as Hinv.
  destruct (searching_phase w q Hinv Hq) as [-> Hp].
  pose proof (step_bisect_next_escape w [] bi bi' e Hq Hb Hs Hne) as Hstep.
  match type of Hstep with _ = Some ?x => set (w1 := x) in * end.
  destruct Hinv as (_ & Hfoc & Hfault & _).
  destruct Hp as (_ & Hpr & Hl & _ & Hset & Hfin).
  pose proof (focused_settled w Hfoc Hset) as Hidle.
  assert (Hfin1 : finished_codes (trace w1) = []).
  { unfold w1. cbn -[finished_codes]. by rewrite finished_codes_app, Hfin. }
  assert (Hquiet : quiet w1) by by repeat split.
  exists w1. do 2 (split; [done |]).
  split; [unfold w1; cbn; by rewrite Hfault |].
  do 6 (split; [done |]).
  split; [intros i; by apply quiet_dead |].
  intros more w2. by apply quiet_run.
Qed.



(** X14.  When [Bisector.bisect] raises a MozRegressionError, the slot
    [bisect] catches it: the error is stored, [finished] is emitted with no
    bisection and the code EXCEPTION, and that is the whole run: no Bisection
    is created, no [started] and no step follows, and no input is possible
    any more. *)
Theorem bisect_failure_ends_run files handler good bad info :
  Bisector_build_data handler good bad = inl (MozRegressionError info) →
  ∃ w,
    run [RunTask] (start files handler good bad) = Some w ∧
    trace w = [finished false EXCEPTION] ∧
    GuiBisector.error (bisector w) = Some info ∧
    GuiBisector.bisection (bisector w) = None ∧
    queue w = [] ∧ faults w = [] ∧
    (∀ i, step i w = None) ∧
    (∀ inputs w', run inputs (start files handler good bad) = Some w' →
                  trace w' `prefix_of` trace w).
Proof.
  intros Hd.
  set (w0 := start files handler good bad).
  pose proof (step_bisect_raise w0 [] handler good bad info
                eq_refl eq_refl Hd) as H1.
  match type of H1 with _ = Some ?x => set (w1 := x) in * end.
  assert (Hstuck : ∀ i, step i w1 = None).
  { intros i. by apply quiet_dead. }
  exists w1. split.
  { cbn [run]. fold w0. by rewrite H1. }
  do 6 (split; [done |]).
  intros inputs w' Hrun. fold w0 in Hrun.
  destruct inputs as [| i1 rest]; cbn [run] in Hrun.
  { simplify_eq. apply prefix_nil. }
  destruct (idle_inputs w0 i1 eq_refl eq_refl) as [-> | Hno]; cycle 1.
  { by rewrite Hno in Hrun. }
  rewrite H1 in Hrun.
  destruct rest as [| i2 rest]; cbn [run] in Hrun.
  { by simplify_eq. }
  by rewrite Hstuck in Hrun.
Qed.

(** *** The tracked downloads of a run *)

(** X15.  At any time in a run, a tracked download that is not cancelled is
    the download of the focused build; so at most one download is active. *)
Theorem one_active_download files handler good bad inputs (w : World) :
  run inputs (start files handler good bad) = Some w →
  only_focused_active w ∧
  ∀ dest1 tk1 dest2 tk2,
    tracked w !! dest1 = Some tk1 → canceled tk1 = false →
    tracked w !! dest2 = Some tk2 → canceled tk2 = false →
    dest1 = dest2.
Proof.
  intros Hrun.
  assert (Hact : only_focused_active w).
  { intros dest tk Ht _.
    destruct (reached files handler good bad inputs w Hrun)
      as [(_ & Hfoc & _) | (_ & _ & _ & _ & Hnone & _)]; cycle 1.
    { by rewrite Hnone, lookup_empty in Ht. }
    unfold focused in Hfoc.
    destruct (GuiBisector.build_infos (bisector w)) as [infos|]; cycle 1.
    { by rewrite Hfoc, lookup_empty in Ht. }
    destruct Hfoc as (build_path & Hbp & Honly).
    exists infos. split; [done |].
    by rewrite (Honly dest) by (rewrite Ht; eauto). }
  split; [done |].
  intros dest1 tk1 dest2 tk2 H1 Hc1 H2 Hc2.
  destruct (Hact dest1 tk1 H1 Hc1) as (i1 & Hi1 & Hp1).
  destruct (Hact dest2 tk2 H2 Hc2) as (i2 & Hi2 & Hp2).
  congruence.
Qed.

(** *** A focused download that fails *)

(** X16.  When the download of the focused build ends cancelled or with an
    error, [_build_dl_finished] drops the event and nothing else resumes the
    step: the run stays where it is for ever.  No [finished] signal is ever
    emitted, no evaluation and no further step begins; the trace only grows
    by [download_finished] signals. *)
Theorem failed_download_stalls files handler good bad inputs (w : World)
    infos dest tk err :
  run inputs (start files handler good bad) = Some w →
  GuiBisector.build_infos (bisector w) = Some infos →
  infos !! "build_path"%string = Some dest →
  tracked w !! dest = Some tk →
  canceled tk = true ∨ is_Some err →
  ∃ w1,
    step (DownloadDone dest err) w = Some w1 ∧
    queue w1 = [] ∧ prompts w1 = 0%nat ∧
    trace w1 = trace w
               ++ [download_finished
                     {| Download.get_dest := dest;
                        Download.is_canceled := canceled tk;
                        Download.error := err |}] ∧
    ∀ more w2, run more w1 = Some w2 →
      queue w2 = [] ∧ prompts w2 = 0%nat ∧
      finished_codes (trace w2) = [] ∧
      step_indices (trace w2) = step_indices (trace w) ∧
      ∃ extra, trace w2 = trace w1 ++ extra ∧
               Forall is_download_finished extra.
Proof.
  intros Hrun Hbi Hbp Ht Hfail.
  destruct (reached files handler good bad inputs w Hrun)
    as [Hinv | (_ & _ & _ & _ & Hnone & _)]; cycle 1.
  { by rewrite Hnone, lookup_empty in Ht. }
  pose proof Hinv as (_ & Hfoc & _ & [p Hp']).
  assert (Hp : in_phase Downloading w).
  { destruct p; cbn in Hp'; try done.
    - destruct Hp' as (_ & _ & _ & _ & Hnone & _). congruence.
    - destruct Hp' as (_ & _ & _ & _ & Hset & _).
      rewrite (Hset infos dest Hbi Hbp) in Ht. done.
    - destruct Hp' as (_ & _ & _ & _ & Hset & _).
      rewrite (Hset infos dest Hbi Hbp) in Ht. done.
    - destruct Hp' as (_ & _ & _ & _ & Hset & _).
      rewrite (Hset infos dest Hbi Hbp) in Ht. done.
    - destruct Hp' as (_ & _ & _ & Hset & _).
      rewrite (Hset infos dest Hbi Hbp) in Ht. done. }
  clear p Hp'.
  pose proof Hp as (Hq & Hpr & Hl & Hb & Hsome & Hfin).
  pose proof (step_download_done w dest err tk infos dest Ht Hbi Hbp) as Hstep.
  cbn zeta in Hstep.
  assert (Hdrop : bool_decide (dest = dest) && negb (canceled tk)
                  && negb (bool_decide (is_Some err)) = false).
  { destruct Hfail as [-> | Herr].
    - by rewrite andb_false_r.
    - rewrite (bool_decide_eq_true_2 _ Herr). by rewrite andb_false_r. }
  rewrite Hdrop, app_nil_r in Hstep.
  match type of Hstep with _ = Some ?x => set (w1 := x) in * end.
  assert (Hquiet : quiet w1).
  { repeat split; try done.
    unfold tracked, w1. cbn. apply map_empty. intros k.
    apply lookup_delete_None.
    destruct (decide (dest = k)) as [-> | Hk]; [by left | right].
    destruct (tracked w !! k) as [tk'|] eqn:Htk; [| done].
    unfold focused in Hfoc. rewrite Hbi in Hfoc.
    destruct Hfoc as (build_path & Hbp' & Honly).
    assert (k = build_path) by (apply Honly; rewrite Htk; eauto).
    congruence. }
  exists w1. do 4 (split; [done |]).
  intros more w2 Hmore.
  rewrite (quiet_run more w1 w2 Hquiet Hmore).
  do 2 (split; [done |]).
  split; [unfold w1; cbn -[finished_codes]; by rewrite finished_codes_app, Hfin |].
  split; [unfold w1; cbn -[step_indices];
          rewrite step_indices_app; cbn; by rewrite app_nil_r |].
  exists []. by rewrite app_nil_r.
Qed.

(** *** A whole step *)

Lemma run_app (inputs more : list Input) (w : World) :
  run (inputs ++ more) w = run inputs w ≫= run more.
Proof.
  revert w. induction inputs as [| i rest IH]; intros w; cbn; [done |].
  destruct (step i w) as [w1|]; [apply IH | done].
Qed.

(** The reports of a download that has its callback: each gives one
    [download_progress] signal, and nothing else changes. *)
Lemma run_progress (w : World) dest tk reports :
  tracked w !! dest = Some tk →
  progress_hook tk = true →
  run (progress_inputs dest reports) w =
  Some {| bisector := bisector w;
          queue := queue w;
          prompts := prompts w;
          trace := trace w ++ progress_signals (as_download dest tk) reports;
          faults := faults w |}.
Proof.
  intros Ht Hhook. revert w Ht. unfold progress_inputs, progress_signals.
  induction reports as [| [current total] rest IH]; intros w Ht.
  - cbn. rewrite app_nil_r. by destruct w.
  - rewrite !fmap_cons. cbn [run fst snd].
    rewrite (step_download_progress w dest current total tk Ht), Hhook.
    rewrite IH by exact Ht. cbn. by rewrite <- app_assoc.
Qed.

(** X17.  A run whose first step goes through and whose first verdict ends
    the bisection: the download of the build reports its progress any number
    of times and ends well, the build is evaluated and [handle_verdict]
    returns a code that is not RUNNING.  The signals are then, in this
    order: [started], [step_started] 1, [download_started],
    [step_build_found], one [download_progress] for each report,
    [download_finished], the launch and [evaluate_started], the stop of the
    launcher and [evaluate_finished], [step_finished] 1 with the verdict,
    and [finished] with the code.  The launcher received the dict with its
    ['build_path'], and the download is no longer tracked. *)
Theorem one_step_then_finished files handler good bad build_data
    bi1 m bi2 v bi3 code (reports : list (Z * Z)) :
  let infos0 := handler_build_infos bi2 m in
  let dest := GuiBuildDownloadManager.dest_of infos0 in
  let infos := <["build_path"%string := dest]> infos0 in
  let l := GuiTestRunner.create_launcher (Some infos) in
  let dl := {| Download.get_dest := dest; Download.is_canceled := false;
               Download.error := None |} in
  Bisector_build_data handler good bad = inr build_data →
  search_mid_point (new_Bisection handler build_data) = (bi1, inr m) →
  init_handler bi1 m = (bi2, RUNNING) →
  handle_verdict (update_build_info bi2 (Some m) (get_app_info l))
    (Some m) (Some v) = (bi3, code) →
  code ≠ RUNNING →
  ∃ w,
    run ([RunTask; RunTask] ++ progress_inputs dest reports
           ++ [DownloadDone dest None; RunTask; Verdict v])
      (start files handler good bad) = Some w ∧
    trace w =
      [started true; step_started true 1; download_started dl;
       step_build_found true 1 infos]
      ++ progress_signals dl reports
      ++ [download_finished dl;
          launcher_start l; evaluate_started;
          launcher_stop l; evaluate_finished;
          step_finished true 1 (Some v);
          finished true code] ∧
    queue w = [] ∧ prompts w = 0%nat ∧ launcher w = None ∧ faults w = [] ∧
    GuiBisector.bisection (bisector w) = Some bi3 ∧
    tracked w = ∅.
Proof.
  intros infos0 dest infos l dl Hd Hs Hi Hh Hc.
  set (w0 := start files handler good bad).
  pose proof (step_bisect_ok w0 [] handler good bad build_data
                eq_refl eq_refl Hd) as H1.
  match type of H1 with _ = Some ?x => set (w1 := x) in * end.
  pose proof (step_bisect_next_go w1 [] _ bi1 m bi2 eq_refl eq_refl Hs Hi) as H2.
  cbn zeta in H2. fold infos0 in H2. fold dest in H2. fold infos in H2.
  set (found := GuiBuildDownloadManager.focus_download infos0
                  (GuiBisector.download_manager (bisector w1))) in *.
  set (tk := {| canceled := false; progress_hook := true |}).
  assert (Hsig : found.2 = [Emit (download_started dl)]).
  { unfold found. rewrite focus_download_signals.
    fold infos0. fold dest. rewrite decide_False; [done |].
    cbn. rewrite lookup_empty. by intros [? ?]. }
  assert (Hfound : GuiBuildDownloadManager._downloads found.1.2 = {[dest := tk]}).
  { apply map_eq. intros k. unfold found. rewrite focus_download_lookup.
    fold infos0. fold dest. cbn. rewrite lookup_empty.
    case_decide as Hk.
    - subst k. by rewrite lookup_singleton_eq.
    - by rewrite lookup_singleton_ne. }
  rewrite Hsig in H2.
  match type of H2 with _ = Some ?x => set (w2 := x) in * end.
  assert (Hlook : tracked w2 !! dest = Some tk).
  { unfold tracked, w2. cbn. by rewrite Hfound, lookup_singleton_eq. }
  pose proof (run_progress w2 dest tk reports Hlook eq_refl) as H2'.
  match type of H2' with _ = Some ?x => set (w2' := x) in * end.
  pose proof (step_download_done w2' dest None tk infos dest
                Hlook eq_refl (lookup_insert_eq _ _ _)) as H3.
  cbn zeta in H3.
  assert (Hnone : bool_decide (is_Some (@None ExcInfo)) = false)
    by (apply bool_decide_eq_false_2; intros [? ?]; done).
  rewrite Hnone in H3.
  rewrite (bool_decide_eq_true_2 (dest = dest) eq_refl) in H3.
  cbn [canceled tk negb orb andb] in H3.
  match type of H3 with _ = Some ?x => set (w3 := x) in * end.
  pose proof (step_evaluate w3 [] bi2 eq_refl eq_refl) as H4.
  cbn zeta in H4.
  match type of H4 with _ = Some ?x => set (w4 := x) in * end.
  pose proof (step_verdict w4 v 0 l bi2 eq_refl eq_refl eq_refl) as H5.
  cbn zeta in H5.
  assert (Hh' : handle_verdict
            (update_build_info bi2 (GuiBisector.mid (bisector w4))
               (GuiTestRunner.app_info (GuiBisector.test_runner (bisector w4))))
            (GuiBisector.mid (bisector w4)) (Some v) = (bi3, code))
    by exact Hh.
  rewrite Hh' in H5. cbn [fst snd] in H5.
  rewrite !decide_True in H5 by done.
  match type of H5 with _ = Some ?x => set (w5 := x) in * end.
  exists w5. split.
  { cbn [app run]. fold w0. rewrite H1, H2.
    rewrite run_app, H2'. cbn [mbind option_bind run].
    by rewrite H3, H4, H5. }
  split.
  { unfold w5, w4, w3, w2', w2, w1. cbn. by rewrite <- !app_assoc. }
  do 5 (split; [done |]).
  change (delete dest (GuiBuildDownloadManager._downloads found.1.2) = ∅).
  rewrite Hfound. apply delete_singleton_eq.
Qed.

(** *** Evaluation comes after the download *)



End Sequencer.

(** * The properties on the scripted handler *)

Import Script.

Lemma focus_download_cancels_others_witness :
  let dm' := (GuiBuildDownloadManager.focus_download two busy).1.2 in
  as_download "/tmp/other.zip" {| canceled := true; progress_hook := true |}
    ∈ GuiBuildDownloadManager.tracked_downloads dm' ∧
  as_download "/tmp/two.zip" {| canceled := false; progress_hook := true |}
    ∈ GuiBuildDownloadManager.tracked_downloads dm' ∧
  Download.is_canceled
    (as_download "/tmp/other.zip" {| canceled := true; progress_hook := true |})
    = true.
Proof.
  intros dm'.
  assert (H1 : as_download "/tmp/other.zip"
                 {| canceled := true; progress_hook := true |}
               ∈ GuiBuildDownloadManager.tracked_downloads dm').
  { apply elem_of_tracked_downloads.
    exists "/tmp/other.zip"%string, {| canceled := true; progress_hook := true |}.
    split; reflexivity. }
  assert (H2 : as_download "/tmp/two.zip"
                 {| canceled := false; progress_hook := true |}
               ∈ GuiBuildDownloadManager.tracked_downloads dm').
  { apply elem_of_tracked_downloads.
    exists "/tmp/two.zip"%string, {| canceled := false; progress_hook := true |}.
    split; reflexivity. }
  split; [exact H1 |]. split; [exact H2 |].
  apply (proj1 (focus_download_cancels_others two busy) _ H1).
  discriminate.
Defined.

Lemma focus_download_sets_build_path_witness :
  ∃ infos,
    (GuiBuildDownloadManager.focus_download two busy).1.1 = Ok infos ∧
    infos !! "build_path"%string = Some "/tmp/two.zip"%string.
Proof.
  destruct (focus_download_sets_build_path two busy) as (infos & Hr & _ & Hp & _).
  exists infos. split; [exact Hr | exact Hp].
Defined.

Lemma build_dl_finished_filters_witness :
  GuiBisector._build_dl_finished
    {| Download.get_dest := "/tmp/two.zip"; Download.is_canceled := false;
       Download.error := None |} focused_bisector
  = (Ok tt, focused_bisector, [SingleShot 0 T_evaluate]) ∧
  GuiBisector._build_dl_finished
    {| Download.get_dest := "/tmp/other.zip"; Download.is_canceled := false;
       Download.error := None |} focused_bisector
  = (Ok tt, focused_bisector, []) ∧
  GuiBisector._build_dl_finished
    {| Download.get_dest := "/tmp/two.zip"; Download.is_canceled := true;
       Download.error := None |} focused_bisector
  = (Ok tt, focused_bisector, []).
Proof.
  assert (Hfilter := λ dl,
    build_dl_finished_filters focused_bisector
      (<["build_path"%string := "/tmp/two.zip"%string]> two)
      "/tmp/two.zip" dl eq_refl eq_refl).
  split; [| split].
  - destruct (Hfilter {| Download.get_dest := "/tmp/two.zip";
                         Download.is_canceled := false;
                         Download.error := None |}) as (_ & _ & Hgo & _).
    apply Hgo; reflexivity.
  - destruct (Hfilter {| Download.get_dest := "/tmp/other.zip";
                         Download.is_canceled := false;
                         Download.error := None |}) as (Hstale & _).
    apply Hstale. discriminate.
  - destruct (Hfilter {| Download.get_dest := "/tmp/two.zip";
                         Download.is_canceled := true;
                         Download.error := None |}) as (_ & Hdrop & _).
    apply Hdrop; [reflexivity | left; reflexivity].
Defined.

Lemma finish_requires_evaluate_witness :
  GuiTestRunner.finish "g" GuiTestRunner.new
    = (Raise AssertionError, GuiTestRunner.new, []) ∧
  GuiTestRunner.finish "b"
    (GuiTestRunner.set_launcher (Some (GuiTestRunner.create_launcher (Some two)))
       GuiTestRunner.new)
    = (Ok tt, GuiTestRunner.set_verdict (Some "b"%string) GuiTestRunner.new,
       [Emit (launcher_stop (GuiTestRunner.create_launcher (Some two)));
        Emit evaluate_finished]).
Proof.
  split.
  - destruct (finish_requires_evaluate GuiTestRunner.new "g") as (_ & Hnone & _).
    apply Hnone. reflexivity.
  - destruct (finish_requires_evaluate
                (GuiTestRunner.set_launcher
                   (Some (GuiTestRunner.create_launcher (Some two)))
                   GuiTestRunner.new) "b") as (_ & _ & Hsome & _).
    apply Hsome. reflexivity.
Defined.


Lemma controller_well_formed : BisectRunner.well_formed controller.
Proof.
  intros r Hr. injection Hr as <-. exists running_bisector. reflexivity.
Defined.

Lemma stop_idempotent_witness :
  BisectRunner.bisector (BisectRunner.stop controller).1.2 = None ∧
  BisectRunner.thread (BisectRunner.stop controller).1.2 = None ∧
  BisectRunner.stop (BisectRunner.stop controller).1.2
    = (Ok tt, (BisectRunner.stop controller).1.2, []) ∧
  ∃ b1, BisectRunner.bisectors (BisectRunner.stop controller).1.2 !! 0%nat
          = Some b1 ∧
        ∀ dl, dl ∈ GuiBuildDownloadManager.tracked_downloads
                     (GuiBisector.download_manager b1) →
              Download.is_canceled dl = true.
Proof.
  destruct (stop_idempotent controller controller_well_formed)
    as (_ & Hb & Ht & Hdl & _ & Hagain & _).
  split; [exact Hb |]. split; [exact Ht |]. split; [exact Hagain |].
  apply (Hdl 0%nat). reflexivity.
Defined.

Lemma bisection_finished_outcome_witness :
  BisectRunner.bisection_finished true EXCEPTION controller =
  (Ok tt, (BisectRunner.stop controller).1.2,
   [Emit (message_box Critical "End of the bisection"
            "Error: no build in the range")]) ∧
  BisectRunner.bisection_finished true 1 controller =
  (Ok tt, (BisectRunner.stop controller).1.2,
   [Emit (message_box Warning "End of the bisection"
            "Unable to find enough data to bisect.")]) ∧
  BisectRunner.bisection_finished true 2 controller =
  (Ok tt, (BisectRunner.stop controller).1.2,
   [Emit (message_box Information "End of the bisection"
            "The bisection is done.")]).
Proof.
  split; [| split].
  - destruct (bisection_finished_outcome controller true EXCEPTION
                controller_well_formed) as (_ & Hexc & _).
    refine (Hexc eq_refl _ 0%nat running_bisector no_mid_point
              eq_refl eq_refl eq_refl).
    discriminate.
  - destruct (bisection_finished_outcome controller true 1
                controller_well_formed) as (Hnodata & _).
    apply Hnodata. reflexivity.
  - destruct (bisection_finished_outcome controller true 2
                controller_well_formed) as (_ & _ & Hdone).
    apply Hdone; discriminate.
Defined.

Lemma evaluate_verdict_good_or_bad_witness :
  BisectRunner.verdict_of Yes = "g"%string ∧
  BisectRunner.verdict_of No = "b"%string ∧
  ∃ a' b',
    BisectRunner.evaluate No controller =
    (Ok tt, a',
     [Emit (message_box Question "Build Evaluation" "Is that good ?");
      Emit (launcher_stop (GuiTestRunner.create_launcher (Some two)));
      Emit evaluate_finished]) ∧
    BisectRunner.bisectors a' !! 0%nat = Some b' ∧
    GuiTestRunner.verdict (GuiBisector.test_runner b') = Some "b"%string.
Proof.
  split; [| split].
  - destruct (evaluate_verdict_good_or_bad controller Yes) as (_ & Hyes & _).
    apply Hyes. unfold BisectRunner.evaluate_buttons. apply list_elem_of_here.
  - destruct (evaluate_verdict_good_or_bad controller No) as (_ & Hno & _).
    apply Hno. unfold BisectRunner.evaluate_buttons.
    apply list_elem_of_further, list_elem_of_here.
  - destruct (evaluate_verdict_good_or_bad controller No) as (_ & _ & Hfinish).
    apply (Hfinish 0%nat running_bisector
             (GuiTestRunner.create_launcher (Some two))); reflexivity.
Defined.

(** The scripted run reaches a world after its first step. *)
Lemma one_step_runs :
  ∃ w, Run.run one_step from_two = Some w ∧
       Run.queue w = [T_bisect_next] ∧
       GuiBisector._step_num (Run.bisector w) = 1%nat ∧
       GuiBisector.bisection (Run.bisector w) = Some 0%nat.
Proof.
  assert (Hq : Run.queue <$> Run.run one_step from_two = Some [T_bisect_next])
    by reflexivity.
  assert (Hn : (λ w, GuiBisector._step_num (Run.bisector w))
                 <$> Run.run one_step from_two = Some 1%nat)
    by reflexivity.
  assert (Hb : (λ w, GuiBisector.bisection (Run.bisector w))
                 <$> Run.run one_step from_two = Some (Some 0%nat))
    by reflexivity.
  destruct (Run.run one_step from_two) as [w|]; [| discriminate Hq].
  exists w. cbn in Hq, Hn, Hb.
  split; [reflexivity |].
  split; [congruence |]. split; congruence.
Defined.

Lemma step_indices_consecutive_witness :
  ∃ w, Run.run (one_step ++ [Run.RunTask]) from_two = Some w ∧
       Run.step_indices (Run.trace w) = [1%nat; 2%nat].
Proof.
  assert (Hn : (λ w, GuiBisector._step_num (Run.bisector w))
                 <$> Run.run (one_step ++ [Run.RunTask]) from_two = Some 2%nat)
    by reflexivity.
  destruct (Run.run (one_step ++ [Run.RunTask]) from_two) as [w|] eqn:Hrun;
    [| discriminate Hn].
  cbn in Hn. injection Hn as Hn.
  exists w. split; [reflexivity |].
  destruct (@step_indices_consecutive script ∅ tt "ab"%string "z"%string
              (one_step ++ [Run.RunTask]) w Hrun) as (Hidx & _).
  rewrite Hidx, Hn. reflexivity.
Defined.

Lemma search_failure_ends_run_witness :
  ∃ w w1,
    Run.run one_step from_two = Some w ∧
    Run.queue w = [T_bisect_next] ∧
    Run.step Run.RunTask w = Some w1 ∧
    GuiBisector.error (Run.bisector w1) = Some no_mid_point ∧
    Run.finished_codes (Run.trace w1) = [EXCEPTION] ∧
    Run.queue w1 = [].
Proof.
  destruct one_step_runs as (w & Hrun & Hq & _ & Hb).
  destruct (@search_failure_ends_run script ∅ tt "ab"%string "z"%string
              one_step w [] 0%nat 0%nat no_mid_point Hrun Hq Hb eq_refl)
    as (w1 & Hstep & Herr & _ & Hfin & Hq1 & _).
  exists w, w1.
  split; [exact Hrun |]. split; [exact Hq |]. split; [exact Hstep |].
  split; [exact Herr |]. split; [exact Hfin | exact Hq1].
Defined.

(** C1, the search raises another exception.  The scripted search raises a
    KeyError when the counter is 3.  The first step of that run emits
    [step_started] and is left by the exception: [error] stays None and no
    [finished] signal is emitted, in this execution or in any other from the
    same start, and no input is possible after the step. *)
Lemma search_failure_other_exception :
  @search_mid_point script 3%nat = (3%nat, inl KeyError) ∧
  ∃ w,
    Run.run [Run.RunTask; Run.RunTask] from_three = Some w ∧
    Run.trace w = [started true; step_started true 1] ∧
    Run.faults w = [KeyError] ∧
    (∀ i, Run.step i w = None) ∧
    (∀ inputs w', Run.run inputs from_three = Some w' →
                  Run.finished_codes (Run.trace w') = [] ∧
                  GuiBisector.error (Run.bisector w') = None).
Proof.
  split; [reflexivity |].
  apply (@first_search_escapes script ∅ tt "abc"%string "z"%string
           3%nat 3%nat KeyError); [reflexivity | reflexivity |].
  intros info. discriminate.
Qed.

Lemma init_not_running_first_step_witness :
  ∃ w,
    Run.run [Run.RunTask; Run.RunTask] from_one = Some w ∧
    Run.trace w = [started true; step_started true 1; finished true 1] ∧
    ∀ i, Run.step i w = None.
Proof.
  destruct (@init_not_running_first_step script ∅ tt "a"%string "z"%string
              1%nat 1%nat 1%nat 1%nat 1 eq_refl eq_refl eq_refl)
    as (w & Hrun & Htr & _ & _ & _ & _ & _ & _ & Hstuck & _);
    [discriminate |].
  exists w. split; [exact Hrun |]. split; [exact Htr | exact Hstuck].
Defined.


Lemma build_dl_finished_needs_focus_witness :
  GuiBisector._build_dl_finished
    {| Download.get_dest := "/tmp/two.zip"; Download.is_canceled := false;
       Download.error := None |} (GuiBisector.new ∅)
  = (Raise TypeError, GuiBisector.new ∅, []).
Proof.
  destruct (build_dl_finished_needs_focus (GuiBisector.new ∅)
              {| Download.get_dest := "/tmp/two.zip";
                 Download.is_canceled := false;
                 Download.error := None |}) as (Hnone & _).
  apply Hnone. reflexivity.
Defined.

Lemma slots_need_bisection_witness :
  GuiBisector._bisect_next (GuiBisector.new ∅) =
    (Raise AttributeError, GuiBisector.set_step_num 1 (GuiBisector.new ∅),
     [Emit (step_started false 1)]) ∧
  GuiBisector.bisect (GuiBisector.new ∅)
    = (Raise TypeError, GuiBisector.new ∅, []).
Proof.
  destruct (@slots_need_bisection script (GuiBisector.new ∅) eq_refl)
    as (Hnext & _ & _ & Hbisect).
  split; [exact Hnext | apply Hbisect; reflexivity].
Defined.

Lemma bisect_starts_run_witness :
  (BisectRunner.bisect ∅ nightly_options controller).1.1 = Ok tt ∧
  (BisectRunner.bisect ∅ nightly_options controller).2 = [SingleShot 0 T_bisect].
Proof.
  destruct (@bisect_starts_run script controller ∅ nightly_options tt
              "2015-01-01"%string "2015-02-01"%string controller_well_formed)
    as (Heq & _).
  - left. repeat split; reflexivity.
  - cbn zeta in Heq. rewrite Heq. split; reflexivity.
Defined.

Lemma bisect_missing_option_witness :
  (BisectRunner.bisect ∅ ∅ controller).1.1 = Raise KeyError ∧
  (BisectRunner.bisect ∅ ∅ controller).2 = [].
Proof.
  pose proof (@bisect_missing_option script controller ∅ ∅
                controller_well_formed (or_introl eq_refl)) as Heq.
  cbn zeta in Heq. rewrite Heq. split; reflexivity.
Defined.

Lemma bisection_finished_without_error_witness :
  BisectRunner.bisection_finished true EXCEPTION BisectRunner.new
  = (Raise AttributeError, BisectRunner.new, []).
Proof.
  assert (Hne : @NO_DATA script ≠ EXCEPTION) by discriminate.
  destruct (@bisection_finished_without_error script BisectRunner.new true Hne)
    as (Hnone & _).
  apply Hnone. reflexivity.
Defined.

Lemma evaluate_without_evaluation_witness :
  BisectRunner.evaluate Yes BisectRunner.new
  = (Raise AttributeError, BisectRunner.new,
     [Emit (message_box Question "Build Evaluation" "Is that good ?")]).
Proof.
  destruct (@evaluate_without_evaluation script BisectRunner.new Yes)
    as (Hnone & _).
  apply Hnone. reflexivity.
Defined.

(** The scripted run reaches the download and the evaluation of its first
    step. *)
Lemma download_runs :
  ∃ w, Run.run until_download from_two = Some w ∧
       GuiBisector.build_infos (Run.bisector w) = Some two_focused ∧
       Run.tracked w !! "/tmp/two.zip"%string
         = Some {| canceled := false; progress_hook := true |}.
Proof.
  assert (Hb : (λ w, GuiBisector.build_infos (Run.bisector w))
                 <$> Run.run until_download from_two = Some (Some two_focused))
    by reflexivity.
  assert (Ht : (λ w, Run.tracked w !! "/tmp/two.zip"%string)
                 <$> Run.run until_download from_two
               = Some (Some {| canceled := false; progress_hook := true |}))
    by reflexivity.
  destruct (Run.run until_download from_two) as [w|]; [| discriminate Hb].
  exists w. cbn in Hb, Ht.
  split; [reflexivity |]. split; congruence.
Defined.


Lemma finished_at_most_once_witness :
  ∃ w, Run.run [Run.RunTask; Run.RunTask] from_one = Some w ∧
       Run.finished_codes (Run.trace w) = [1] ∧
       Run.queue w = [] ∧ Run.prompts w = 0%nat.
Proof.
  assert (Hf : (λ w, Run.finished_codes (Run.trace w))
                 <$> Run.run [Run.RunTask; Run.RunTask] from_one = Some [1])
    by reflexivity.
  destruct (Run.run [Run.RunTask; Run.RunTask] from_one) as [w|] eqn:Hrun;
    [| discriminate Hf].
  cbn in Hf. injection Hf as Hf.
  exists w. split; [reflexivity |]. split; [exact Hf |].
  destruct (@finished_at_most_once script ∅ tt "a"%string "z"%string
              [Run.RunTask; Run.RunTask] w Hrun) as (_ & Hend).
  destruct Hend as (Hq & Hp & _); [by rewrite Hf |].
  split; [exact Hq | exact Hp].
Defined.

(** The scripted run whose counter starts at 3 reaches its first step. *)
Lemma three_runs :
  ∃ w, Run.run [Run.RunTask] from_three = Some w ∧
       Run.queue w = [T_bisect_next] ∧
       GuiBisector.bisection (Run.bisector w) = Some 3%nat.
Proof.
  assert (Hq : Run.queue <$> Run.run [Run.RunTask] from_three
               = Some [T_bisect_next])
    by reflexivity.
  assert (Hb : (λ w, GuiBisector.bisection (Run.bisector w))
                 <$> Run.run [Run.RunTask] from_three = Some (Some 3%nat))
    by reflexivity.
  destruct (Run.run [Run.RunTask] from_three) as [w|]; [| discriminate Hq].
  exists w. cbn in Hq, Hb.
  split; [reflexivity |]. split; congruence.
Defined.

Lemma other_exception_escapes_witness :
  ∃ w w1,
    Run.run [Run.RunTask] from_three = Some w ∧
    Run.step Run.RunTask w = Some w1 ∧
    Run.faults w1 = [KeyError] ∧
    Run.finished_codes (Run.trace w1) = [] ∧
    ∀ i, Run.step i w1 = None.
Proof.
  destruct three_runs as (w & Hrun & Hq & Hb).
  destruct (@other_exception_escapes script ∅ tt "abc"%string "z"%string
              [Run.RunTask] w [] 3%nat 3%nat KeyError Hrun Hq Hb eq_refl)
    as (w1 & Hstep & _ & Hfault & _ & Hfin & _ & _ & _ & _ & Hdead & _).
  - intros info. discriminate.
  - exists w, w1. split; [exact Hrun |]. split; [exact Hstep |].
    split; [exact Hfault |]. split; [exact Hfin | exact Hdead].
Defined.


Lemma one_active_download_witness :
  ∃ w, Run.run until_download from_two = Some w ∧ Run.only_focused_active w.
Proof.
  destruct download_runs as (w & Hrun & _).
  exists w. split; [exact Hrun |].
  apply (@one_active_download script ∅ tt "ab"%string "z"%string
           until_download w Hrun).
Defined.


Lemma bisect_failure_ends_run_witness :
  ∃ w, Run.run [Run.RunTask] (@Run.start script ∅ tt "ab" "") = Some w ∧
       Run.trace w = [finished false EXCEPTION] ∧
       GuiBisector.error (Run.bisector w) = Some no_data.
Proof.
  destruct (@bisect_failure_ends_run script ∅ tt "ab"%string ""%string
              no_data eq_refl) as (w & Hrun & Htr & Herr & _).
  exists w. split; [exact Hrun |]. split; [exact Htr | exact Herr].
Defined.

Lemma failed_download_stalls_witness :
  ∃ w w1, Run.run until_download from_two = Some w ∧
          Run.step (Run.DownloadDone "/tmp/two.zip" (Some no_data)) w = Some w1 ∧
          Run.queue w1 = [].
Proof.
  destruct download_runs as (w & Hrun & Hb & Ht).
  destruct (@failed_download_stalls script ∅ tt "ab"%string "z"%string
              until_download w two_focused "/tmp/two.zip"%string
              {| canceled := false; progress_hook := true |} (Some no_data)
              Hrun Hb eq_refl Ht) as (w1 & Hstep & Hq & _).
  - right. by exists no_data.
  - exists w, w1. split; [exact Hrun |]. split; [exact Hstep | exact Hq].
Defined.

Lemma one_step_then_finished_witness :
  ∃ w, Run.run [Run.RunTask; Run.RunTask;
                Run.DownloadProgress "/tmp/other.zip" 10 100;
                Run.DownloadProgress "/tmp/other.zip" 100 100;
                Run.DownloadDone "/tmp/other.zip" None;
                Run.RunTask; Run.Verdict "g"]
         (@Run.start script ∅ tt "abcdefg" "z") = Some w ∧
       Run.finished_codes (Run.trace w) = [2] ∧
       length (Run.trace w) = 13%nat ∧
       Run.queue w = [].
Proof.
  destruct (@one_step_then_finished script ∅ tt "abcdefg"%string "z"%string
              7%nat 7%nat 7%nat 7%nat "g"%string 5%nat 2 [(10, 100); (100, 100)]
              eq_refl eq_refl eq_refl)
    as (w & Hrun & Htr & Hq & _).
  - reflexivity.
  - discriminate.
  - exists w. split; [exact Hrun |].
    split; [rewrite Htr; reflexivity |].
    split; [rewrite Htr; reflexivity | exact Hq].
Defined.


